(** * MONAI metric utilities: [monai/metrics/utils.py]

    A shallow embedding of [ignore_background], [do_metric_reduction],
    [get_mask_edges] and [get_surface_distance], the properties the
    specification states about them, and further properties read off the
    code.

    Arrays (torch tensors and numpy arrays alike) are a shape together
    with the cells in row-major order, the layout of a contiguous tensor.
    Scores are IEEE 754 binary32 numbers ([torch.float]), taken from the
    Standard Library's [SpecFloat] at precision 24 and maximal exponent
    128, so NaN, the infinities, signed zeros and rounding are the real
    ones. *)

From Stdlib Require Import String DecimalString ZArith QArith Bool Lia PeanoNat List.
From Stdlib Require Import Floats.SpecFloat.
Import ListNotations.

Local Open Scope string_scope.
Local Open Scope nat_scope.

(** ** Exceptions and the error monad *)

(** The two Python exceptions the code under study can raise: [ValueError]
    by the explicit [raise] statements and by the [Enum] constructor,
    [IndexError] by an axis or a boolean index that does not fit. *)
Inductive exn : Type :=
| ValueError (msg : string)
| IndexError (msg : string).

Definition result (A : Type) : Type := (exn + A)%type.

Definition ret {A} (a : A) : result A := inr a.
Definition raise {A} (e : exn) : result A := inl e.

Definition bind {A B} (m : result A) (k : A -> result B) : result B :=
  match m with
  | inl e => inl e
  | inr a => k a
  end.

Notation "x <- m ;; k" := (bind m (fun x => k))
  (at level 61, m at next level, right associativity).

Definition is_ValueError {A} (r : result A) : Prop :=
  exists msg, r = inl (ValueError msg).

(** ** binary32 scores *)

Module F32.
Definition prec : Z := 24.
Definition emax : Z := 128.

Definition zero : spec_float := S754_zero false.
Definition nan : spec_float := S754_nan.
Definition of_Z (z : Z) : spec_float := binary_normalize prec emax z 0 false.
Definition one : spec_float := of_Z 1.

Definition add : spec_float -> spec_float -> spec_float := SFadd prec emax.
Definition div : spec_float -> spec_float -> spec_float := SFdiv prec emax.
Definition ltb : spec_float -> spec_float -> bool := SFltb.
Definition eqb : spec_float -> spec_float -> bool := SFeqb.

Definition is_nan (x : spec_float) : bool :=
  match x with
  | S754_nan => true
  | _ => false
  end.

Definition of_bool (b : bool) : spec_float := if b then one else zero.

(** The exact rational value of a finite number, to read results. *)
Definition to_Q (x : spec_float) : option Q :=
  match x with
  | S754_zero _ => Some 0%Q
  | S754_finite s m e =>
      let v := match e with
               | Z0 => inject_Z (Zpos m)
               | Zpos p => inject_Z (Zpos m * 2 ^ Zpos p)
               | Zneg p => Qmake (Zpos m) (2 ^ p)
               end in
      Some (if s then Qopp v else v)
  | _ => None
  end.
End F32.

(** ** Arrays *)

Record ndarray (A : Type) : Type := mk_ndarray {
  shape : list nat;
  data : list A
}.

Arguments mk_ndarray {A} shape data.
Arguments shape {A} _.
Arguments data {A} _.

Definition numel (s : list nat) : nat := fold_right Nat.mul 1 s.

(** [a.size] of numpy, [a.numel()] of torch. *)
Definition size {A} (a : ndarray A) : nat := numel (shape a).
Definition ndim {A} (a : ndarray A) : nat := length (shape a).

(** A well-formed array has one cell per index of its shape. *)
Definition wf {A} (a : ndarray A) : Prop := length (data a) = size a.

Definition Tensor : Type := ndarray spec_float.

(** Elementwise operations on arrays of one shape. *)
Definition amap {A B} (g : A -> B) (a : ndarray A) : ndarray B :=
  mk_ndarray (shape a) (map g (data a)).

Definition amap2 {A B C} (g : A -> B -> C) (a : ndarray A) (b : ndarray B) : ndarray C :=
  mk_ndarray (shape a) (map (fun p => g (fst p) (snd p)) (combine (data a) (data b))).

Definition full {A} (s : list nat) (v : A) : ndarray A :=
  mk_ndarray s (repeat v (numel s)).

(** Cell [i] in row-major order. *)
Definition cell {A} (a : ndarray A) (i : nat) : option A := nth_error (data a) i.

(** *** Summing along one axis *)

(** [chunks k n l]: the first [k] consecutive blocks of [n] cells of [l]. *)
Fixpoint chunks {A} (k n : nat) (l : list A) : list (list A) :=
  match k with
  | O => []
  | S k' => firstn n l :: chunks k' n (skipn n l)
  end.

Definition zip_add (acc row : list spec_float) : list spec_float :=
  map (fun p => F32.add (fst p) (snd p)) (combine acc row).

(** One block of [n] rows of [inner] cells each, added up row by row from
    a row of zeros. *)
Definition sum_block (n inner : nat) (blk : list spec_float) : list spec_float :=
  fold_left zip_add (chunks n inner blk) (repeat F32.zero inner).

(** The text of torch's [IndexError] for an axis [d] a tensor of rank [r]
    does not have: the admissible axes are [-r] to [r - 1], and [-1] to 0
    for a 0-dimensional tensor. *)
Definition show_nat (n : nat) : string := NilZero.string_of_uint (Nat.to_uint n).

Definition dim_out_of_range (r d : nat) : exn :=
  IndexError ("Dimension out of range (expected to be in range of [-"
              ++ show_nat (Nat.max r 1) ++ ", " ++ show_nat (Nat.max r 1 - 1)
              ++ "], but got " ++ show_nat d ++ ")").

(** [t.sum(dim=d)].  The axis must exist; as in torch a 0-dimensional
    tensor is summed along axis 0 as if it had one cell.  The additions
    inside one output cell go along the axis from its first index to its
    last, from zero.  torch does not promise this order: its kernels keep
    several partial sums, so that along a long axis the last bits of a
    rounded sum can differ from the ones computed here.  Shapes, counts of
    cells, exceptions and every sum that is exact in binary32 are not
    touched by the order. *)
Definition sum_dim (d : nat) (t : Tensor) : result Tensor :=
  let s := shape t in
  if (d <? length s) || ((length s =? 0) && (d =? 0)) then
    let outer := numel (firstn d s) in
    let n := nth d s 1 in
    let inner := numel (skipn (S d) s) in
    ret (mk_ndarray (firstn d s ++ skipn (S d) s)
           (concat (map (sum_block n inner) (chunks outer (n * inner) (data t)))))
  else raise (dim_out_of_range (length s) d).

(** [t.sum(dim=[0, 1])]: torch merges the two leading axes of a contiguous
    tensor into one axis of [b * c] entries, in memory order, and sums
    along it; the class axis must exist. *)
Definition merge_batch_class (t : Tensor) : result Tensor :=
  match shape t with
  | b :: c :: rest => ret (mk_ndarray (b * c :: rest) (data t))
  | s => raise (dim_out_of_range (length s) 1)
  end.

Definition sum_dims_0_1 (t : Tensor) : result Tensor :=
  t1 <- merge_batch_class t ;; sum_dim 0 t1.

(** [torch.isnan(f)], [~nans], [m.float()], [f[nans] = 0], [x > 0], [a / b]. *)
Definition isnan (f : Tensor) : ndarray bool := amap F32.is_nan f.
Definition logical_not (m : ndarray bool) : ndarray bool := amap negb m.
Definition to_float (m : ndarray bool) : Tensor := amap F32.of_bool m.
Definition masked_zero (f : Tensor) (nans : ndarray bool) : Tensor :=
  amap2 (fun x (b : bool) => if b then F32.zero else x) f nans.
Definition gt_zero (t : Tensor) : ndarray bool := amap (F32.ltb F32.zero) t.
Definition tdiv (a b : Tensor) : Tensor := amap2 F32.div a b.

(** [torch.zeros(1)]: one cell, shape [[1]]. *)
Definition t_zero : Tensor := mk_ndarray [1] [F32.zero].

(** [torch.where(cond, x, y)] for a one-cell [y] of shape [[1]]: the cell
    of [y] is broadcast to every cell of [cond] and [x], which have one
    shape; the result has the broadcast shape, so that a 0-dimensional
    [x] gives a result of shape [[1]]. *)
Definition broadcast_one (s : list nat) : list nat :=
  match s with
  | [] => [1]
  | _ => s
  end.

Definition where_one (cond : ndarray bool) (x y : Tensor) : Tensor :=
  let other := hd F32.zero (data y) in
  mk_ndarray (broadcast_one (shape x))
    (map (fun p => if fst p : bool then snd p else other) (combine (data cond) (data x))).

(** ** The reduction policies *)

(** Modelled from the spec: the enumeration [MetricReduction] of
    [monai.utils], whose declaration is not among the sources; its seven
    members and their string values are the ones the specification and the
    docstring of [do_metric_reduction] list. *)
Inductive MetricReduction : Type :=
| NONE | MEAN | SUM | MEAN_BATCH | SUM_BATCH | MEAN_CHANNEL | SUM_CHANNEL.

Definition MetricReduction_value (m : MetricReduction) : string :=
  match m with
  | NONE => "none"
  | MEAN => "mean"
  | SUM => "sum"
  | MEAN_BATCH => "mean_batch"
  | SUM_BATCH => "sum_batch"
  | MEAN_CHANNEL => "mean_channel"
  | SUM_CHANNEL => "sum_channel"
  end.

Definition MetricReduction_members : list MetricReduction :=
  [NONE; MEAN; SUM; MEAN_BATCH; SUM_BATCH; MEAN_CHANNEL; SUM_CHANNEL].

Definition reduction_names : list string :=
  map MetricReduction_value MetricReduction_members.

(** The argument [reduction : Union[MetricReduction, str]]. *)
Inductive reduction_arg : Type :=
| ByName (s : string)
| ByMember (m : MetricReduction).

(** [MetricReduction(reduction)]: a member is returned as it is, a string is
    looked up among the values, and Python's [Enum] raises [ValueError] for
    a string that is no member's value. *)
Definition MetricReduction_call (r : reduction_arg) : result MetricReduction :=
  match r with
  | ByMember m => ret m
  | ByName s =>
      match find (fun m => String.eqb (MetricReduction_value m) s) MetricReduction_members with
      | Some m => ret m
      | None => raise (ValueError ("'" ++ s ++ "' is not a valid MetricReduction"))
      end
  end.

(** ** [do_metric_reduction] *)

(** The average of the source's [torch.where(not_nans > 0, s / not_nans, t_zero)]. *)
Definition guarded_mean (s not_nans : Tensor) : Tensor :=
  where_one (gt_zero not_nans) (tdiv s not_nans) t_zero.

(** The policy dispatch, lines 71 to 101, on the zeroed scores [f] and the
    0/1 indicator [not_nans].  The final [else: raise ValueError] of the
    source has no case here: line 69 has already made [reduction] one of
    the seven members (or raised). *)
Definition reduce_dispatch (reduction : MetricReduction) (f not_nans : Tensor)
  : result (Tensor * Tensor) :=
  match reduction with
  | MEAN =>
      not_nans <- sum_dim 1 not_nans ;;
      s <- sum_dim 1 f ;;
      let f := guarded_mean s not_nans in
      not_nans <- sum_dim 0 (to_float (gt_zero not_nans)) ;;
      s <- sum_dim 0 f ;;
      let f := guarded_mean s not_nans in
      ret (f, not_nans)
  | SUM =>
      not_nans <- sum_dims_0_1 not_nans ;;
      f <- sum_dims_0_1 f ;;
      ret (f, not_nans)
  | MEAN_BATCH =>
      not_nans <- sum_dim 0 not_nans ;;
      s <- sum_dim 0 f ;;
      ret (guarded_mean s not_nans, not_nans)
  | SUM_BATCH =>
      not_nans <- sum_dim 0 not_nans ;;
      f <- sum_dim 0 f ;;
      ret (f, not_nans)
  | MEAN_CHANNEL =>
      not_nans <- sum_dim 1 not_nans ;;
      s <- sum_dim 1 f ;;
      ret (guarded_mean s not_nans, not_nans)
  | SUM_CHANNEL =>
      not_nans <- sum_dim 1 not_nans ;;
      f <- sum_dim 1 f ;;
      ret (f, not_nans)
  | NONE => ret (f, not_nans)
  end.

(** The outcome of a call: the caller's tensor as the call leaves it (the
    call writes into it, line 66), and what the call returns or raises. *)
Record reduction_outcome : Type := mk_outcome {
  scores_after : Tensor;
  returned : result (Tensor * Tensor)
}.

Definition do_metric_reduction (f : Tensor) (reduction : reduction_arg) : reduction_outcome :=
  let nans := isnan f in
  let not_nans := to_float (logical_not nans) in
  let f := masked_zero f nans in
  mk_outcome f
    (reduction <- MetricReduction_call reduction ;;
     reduce_dispatch reduction f not_nans).

(** ** Segmentation images and masks *)

(** [seg_pred] and [seg_gt]: numpy arrays of dtype [bool], or labelfields
    of integer labels.  A torch tensor is first copied to a numpy array
    cell by cell (lines 139 to 142), which this type does not tell apart. *)
Inductive image : Type :=
| BoolImage (a : ndarray bool)
| LabelImage (a : ndarray Z).

Definition image_shape (im : image) : list nat :=
  match im with
  | BoolImage a => shape a
  | LabelImage a => shape a
  end.

Definition image_size (im : image) : nat := numel (image_shape im).

Definition image_wf (im : image) : Prop :=
  match im with
  | BoolImage a => wf a
  | LabelImage a => wf a
  end.

(** Lines 149 to 152: [seg = seg == label_idx] unless the dtype is [bool]. *)
Definition binarize (im : image) (label_idx : Z) : ndarray bool :=
  match im with
  | BoolImage a => a
  | LabelImage a => amap (fun v => Z.eqb v label_idx) a
  end.

Definition logical_or (a b : ndarray bool) : ndarray bool := amap2 orb a b.
Definition logical_xor (a b : ndarray bool) : ndarray bool := amap2 xorb a b.
Definition invert (a : ndarray bool) : ndarray bool := amap negb a.

(** [np.any(a)] and [np.zeros_like(a)]. *)
Definition any (a : ndarray bool) : bool := existsb (fun b => b) (data a).
Definition zeros_like (a : ndarray bool) : ndarray bool := full (shape a) false.

(** [np.expand_dims(a, 0)] and [np.squeeze(a)]: the cells stay, the shape
    gains a leading axis of length one, or loses every axis of length one. *)
Definition expand_dims0 {A} (a : ndarray A) : ndarray A :=
  mk_ndarray (1 :: shape a) (data a).
Definition squeeze {A} (a : ndarray A) : ndarray A :=
  mk_ndarray (filter (fun n => negb (n =? 1)) (shape a)) (data a).

Definition shape_eqb (s1 s2 : list nat) : bool :=
  if list_eq_dec Nat.eq_dec s1 s2 then true else false.

(** A mask is all false. *)
Definition all_false (a : ndarray bool) : Prop := Forall (fun b => b = false) (data a).

(** Voxel-wise implication. *)
Definition subset_of (a b : ndarray bool) : Prop :=
  forall i, cell a i = Some true -> cell b i = Some true.

Definition count_true (l : list bool) : nat := length (filter (fun b => b) l).

(** ** [get_mask_edges] *)

Section MaskEdges.
(** The kernels the function calls: scipy's [binary_erosion], and MONAI's
    [generate_spatial_bounding_box] and [SpatialCrop] (constructed from
    a box, then applied to an image). *)
Variable binary_erosion : ndarray bool -> ndarray bool.
Variable generate_spatial_bounding_box : ndarray bool -> list nat * list nat.
Variable SpatialCrop : list nat -> list nat -> ndarray bool -> ndarray bool.

(** Lines 164 and 165. *)
Definition edges_of (seg : ndarray bool) : ndarray bool :=
  logical_xor (binary_erosion seg) seg.

Definition get_mask_edges (seg_pred seg_gt : image) (label_idx : Z) (crop : bool)
  : result (ndarray bool * ndarray bool) :=
  if (image_size seg_pred =? 0) || negb (shape_eqb (image_shape seg_pred) (image_shape seg_gt))
  then raise (ValueError "Labelfields should have same shape (and non-zero number of elements)")
  else
    let seg_pred := binarize seg_pred label_idx in
    let seg_gt := binarize seg_gt label_idx in
    if crop then
      if negb (any (logical_or seg_pred seg_gt))
      then ret (zeros_like seg_pred, zeros_like seg_gt)
      else
        let seg_pred := expand_dims0 seg_pred in
        let seg_gt := expand_dims0 seg_gt in
        let box := generate_spatial_bounding_box (logical_or seg_pred seg_gt) in
        let cropper := SpatialCrop (fst box) (snd box) in
        let seg_pred := squeeze (cropper seg_pred) in
        let seg_gt := squeeze (cropper seg_gt) in
        ret (edges_of seg_pred, edges_of seg_gt)
    else ret (edges_of seg_pred, edges_of seg_gt).
End MaskEdges.

(** ** [get_surface_distance] *)

(** binary64, the dtype of numpy's floating-point arrays. *)
Module F64.
Definition prec : Z := 53.
Definition emax : Z := 1024.
Definition inf : spec_float := S754_infinity false.
Definition of_Z (z : Z) : spec_float := binary_normalize prec emax z 0 false.
Definition one : spec_float := of_Z 1.
Definition mul : spec_float -> spec_float -> spec_float := SFmul prec emax.
Definition sqrt : spec_float -> spec_float := SFsqrt prec emax.
End F64.

(** The arrays of distances: [float64] from the Euclidean transform and
    from [np.inf * ...], [int32] from the chamfer transform. *)
Inductive distances : Type :=
| Float64Array (a : ndarray spec_float)
| Int32Array (a : ndarray Z).

(** [a[m]] for a boolean array [m]: the shape of [m] must be a prefix of
    the shape of [a], else numpy raises [IndexError] (its text goes on to
    name the axis and the two sizes); the result lists, in row-major order,
    the sub-arrays of [a] at the true cells of [m]. *)
Definition bool_index {A} (a : ndarray A) (m : ndarray bool) : result (ndarray A) :=
  if shape_eqb (shape m) (firstn (ndim m) (shape a)) then
    let rest := skipn (ndim m) (shape a) in
    let blocks := chunks (size m) (numel rest) (data a) in
    let kept := map snd (filter (fun p => fst p) (combine (data m) blocks)) in
    ret (mk_ndarray (length kept :: rest) (concat kept))
  else raise (IndexError "boolean index did not match indexed array").

Definition distances_index (dis : distances) (m : ndarray bool) : result distances :=
  match dis with
  | Float64Array a => r <- bool_index a m ;; ret (Float64Array r)
  | Int32Array a => r <- bool_index a m ;; ret (Int32Array r)
  end.

(** [np.array([])]. *)
Definition empty_array : distances := Float64Array (mk_ndarray [0] []).

(** [np.inf * np.ones_like(edges_gt)]: the ones are [True], promoted to 1.0. *)
Definition inf_like (a : ndarray bool) : ndarray spec_float :=
  amap (fun _ => F64.mul F64.inf F64.one) a.

Section SurfaceDistance.
(** scipy's distance transforms: for every cell of the input, the
    distance to the nearest false cell. *)
Variable distance_transform_edt : ndarray bool -> ndarray spec_float.
Variable distance_transform_cdt : ndarray bool -> string -> ndarray Z.

Definition get_surface_distance (edges_pred edges_gt : ndarray bool)
    (label_idx : Z) (crop : bool) (distance_metric : string) : result distances :=
  if negb (any edges_pred) then ret empty_array
  else
    dis <-
      (if negb (any edges_gt) then ret (Float64Array (inf_like edges_gt))
       else if String.eqb distance_metric "euclidean"
       then ret (Float64Array (distance_transform_edt (invert edges_gt)))
       else if String.eqb distance_metric "chessboard" || String.eqb distance_metric "taxicab"
       then ret (Int32Array (distance_transform_cdt (invert edges_gt) distance_metric))
       else raise (ValueError ("distance_metric " ++ distance_metric ++ " is not implemented."))) ;;
    distances_index dis edges_pred.
End SurfaceDistance.

(** ** Reference kernels

    Executable versions of the kernels [get_mask_edges] and
    [get_surface_distance] are parameterised by, written over the
    coordinates of the cells.  They instantiate the sections above. *)

Module Kernels.

(** Coordinates of the cell at row-major position [i], and back. *)
Fixpoint unravel (s : list nat) (i : nat) : list nat :=
  match s with
  | [] => []
  | _ :: s' => i / numel s' :: unravel s' (i mod numel s')
  end.

Fixpoint ravel (s c : list nat) : nat :=
  match s, c with
  | _ :: s', x :: c' => x * numel s' + ravel s' c'
  | _, _ => 0
  end.

Definition in_bounds (s c : list nat) : bool :=
  (length c =? length s) && forallb (fun p => fst p <? snd p) (combine c s).

(** The cells with their positions. *)
Definition indexed {A} (a : ndarray A) : list (A * nat) :=
  combine (data a) (seq 0 (length (data a))).

(** The value at coordinates [c]; outside the array it is false, scipy's
    [border_value=0]. *)
Definition voxel (m : ndarray bool) (c : list nat) : bool :=
  in_bounds (shape m) c && nth (ravel (shape m) c) (data m) false.

Fixpoint shift_up (d : nat) (c : list nat) : list nat :=
  match c, d with
  | [], _ => []
  | x :: c', O => S x :: c'
  | x :: c', S d' => x :: shift_up d' c'
  end.

Fixpoint shift_down (d : nat) (c : list nat) : option (list nat) :=
  match c, d with
  | [], _ => None
  | O :: _, O => None
  | S x :: c', O => Some (x :: c')
  | x :: c', S d' => option_map (cons x) (shift_down d' c')
  end.

(** Both neighbours of [c] along every axis are true. *)
Definition neighbours_set (m : ndarray bool) (c : list nat) : bool :=
  forallb
    (fun d => voxel m (shift_up d c) &&
              match shift_down d c with
              | Some c' => voxel m c'
              | None => false
              end)
    (seq 0 (ndim m)).

(** [scipy.ndimage.binary_erosion(m)] with its defaults: one iteration, the
    structuring element of connectivity one (the cell and its two
    neighbours along each axis), false outside the array. *)
Definition binary_erosion (m : ndarray bool) : ndarray bool :=
  mk_ndarray (shape m)
    (map (fun p => fst p && neighbours_set m (unravel (shape m) (snd p))) (indexed m)).

Definition zip_with {A} (g : A -> A -> A) (a b : list A) : list A :=
  map (fun p => g (fst p) (snd p)) (combine a b).

(** Modelled from the spec: [generate_spatial_bounding_box] of
    [monai.transforms.utils], not among the sources: for a channel-first
    mask, the tightest box (start inclusive, end exclusive) of the spatial
    axes that encloses the true voxels. *)
Definition generate_spatial_bounding_box (img : ndarray bool) : list nat * list nat :=
  let cs := map (fun p => tl (unravel (shape img) (snd p)))
                (filter (fun p => fst p) (indexed img)) in
  match cs with
  | [] => ([], [])
  | c :: cs' => (fold_left (zip_with Nat.min) cs' c,
                 map S (fold_left (zip_with Nat.max) cs' c))
  end.

Definition in_box (roi_start roi_end c : list nat) : bool :=
  forallb (fun p => (fst (snd p) <=? fst p) && (fst p <? snd (snd p)))
          (combine c (combine roi_start roi_end)).

(** Modelled from the spec: [SpatialCrop] of [monai.transforms], not among
    the sources: the sub-array of a channel-first image within
    [roi_start, roi_end) along each spatial axis. *)
Definition SpatialCrop (roi_start roi_end : list nat) (img : ndarray bool) : ndarray bool :=
  mk_ndarray (hd 1 (shape img) :: zip_with Nat.sub roi_end roi_start)
    (map fst (filter (fun p => in_box roi_start roi_end (tl (unravel (shape img) (snd p))))
                     (indexed img))).

(** Distances between coordinates. *)
Definition coordinate_gaps (c1 c2 : list nat) : list Z :=
  map (fun p => Z.abs (Z.of_nat (fst p) - Z.of_nat (snd p))) (combine c1 c2).
Definition taxicab (c1 c2 : list nat) : Z := fold_right Z.add 0%Z (coordinate_gaps c1 c2).
Definition chessboard (c1 c2 : list nat) : Z := fold_right Z.max 0%Z (coordinate_gaps c1 c2).
Definition squared_euclidean (c1 c2 : list nat) : Z :=
  fold_right (fun g acc => (g * g + acc)%Z) 0%Z (coordinate_gaps c1 c2).

(** The least distance from [c] to a false cell of [m], if there is one. *)
Definition nearest_false (dist : list nat -> list nat -> Z) (m : ndarray bool) (c : list nat)
  : option Z :=
  fold_left
    (fun best p =>
       if fst p : bool then best
       else
         let d := dist c (unravel (shape m) (snd p)) in
         match best with
         | None => Some d
         | Some b => Some (Z.min b d)
         end)
    (indexed m) None.

Definition transform {A} (dist : list nat -> list nat -> Z) (conv : option Z -> A)
    (m : ndarray bool) : ndarray A :=
  mk_ndarray (shape m)
    (map (fun p => conv (nearest_false dist m (unravel (shape m) (snd p)))) (indexed m)).

(** [scipy.ndimage.distance_transform_edt(m)]: the exact Euclidean distance
    to the nearest false cell. *)
Definition distance_transform_edt (m : ndarray bool) : ndarray spec_float :=
  transform squared_euclidean
    (fun o => match o with
              | Some d2 => F64.sqrt (F64.of_Z d2)
              | None => F64.inf
              end) m.

(** [scipy.ndimage.distance_transform_cdt(m, metric=...)]: the chessboard
    or taxicab distance to the nearest false cell, [-1] if there is none. *)
Definition distance_transform_cdt (m : ndarray bool) (metric : string) : ndarray Z :=
  transform (if String.eqb metric "chessboard" then chessboard else taxicab)
    (fun o => match o with
              | Some d => d
              | None => (-1)%Z
              end) m.

End Kernels.

(** ** Inputs of the examples *)

(** The default policy of the signature, [MetricReduction.MEAN]. *)
Definition do_metric_reduction_default (f : Tensor) : reduction_outcome :=
  do_metric_reduction f (ByMember MEAN).

(** The 2x2 scores [[1, NaN], [3, 4]]. *)
Definition scores_c1 : Tensor :=
  mk_ndarray [2; 2] [F32.of_Z 1; F32.nan; F32.of_Z 3; F32.of_Z 4].

(** 2.25 and 3.5 in binary32. *)
Definition f32_2_25 : spec_float := S754_finite false 9437184 (-22).
Definition f32_3_5 : spec_float := S754_finite false 14680064 (-22).

(** [x] is finite and its exact value is the rational [q]. *)
Definition has_value (x : spec_float) (q : Q) : Prop :=
  match F32.to_Q x with
  | Some v => Qeq v q
  | None => False
  end.

(** The number of entries of a tensor that are not NaN. *)
Definition count_not_nan (f : Tensor) : nat :=
  length (filter (fun x => negb (F32.is_nan x)) (data f)).

(** Two arrays of one shape with as many stored cells. *)
Definition same_layout {A B} (a : ndarray A) (b : ndarray B) : Prop :=
  shape a = shape b /\ length (data a) = length (data b).

Definition same_lengths {A B} (xs : list (list A)) (ys : list (list B)) : Prop :=
  Forall2 (fun a b => length a = length b) xs ys.

(** What line 66 does to one cell. *)
Definition zero_nan (x : spec_float) : spec_float :=
  if F32.is_nan x then F32.zero else x.

(** The value the [mean] policy returns: the one cell of the reduced tensor. *)
Definition two_stage_mean (f : Tensor) : option spec_float :=
  match returned (do_metric_reduction f (ByName "mean")) with
  | inr (out, _) =>
      match data out with
      | [x] => Some x
      | _ => None
      end
  | inl _ => None
  end.

(** The single joint mean over both axes, in the specification's words: the
    sum of all entries that are not NaN, divided by their number. *)
Definition single_pass_mean (f : Tensor) : option spec_float :=
  let valid := filter (fun x => negb (F32.is_nan x)) (data f) in
  Some (F32.div (fold_left F32.add valid F32.zero) (F32.of_Z (Z.of_nat (length valid)))).

(** Policy [none], once and twice: the second call is given the tensor the
    first one returned, which under [none] is the caller's own tensor. *)
Definition reduce_none (scores : Tensor) : result (Tensor * Tensor) :=
  returned (do_metric_reduction scores (ByName "none")).

Definition reduce_none_twice (scores : Tensor) : result (Tensor * Tensor) :=
  r <- reduce_none scores ;; reduce_none (fst r).

(** The 1x2 scores [[1, NaN]]. *)
Definition scores_c5 : Tensor := mk_ndarray [1; 2] [F32.of_Z 1; F32.nan].

(** A tensor of NaN only, 2x3. *)
Definition scores_nan : Tensor := mk_ndarray [2; 3] (repeat F32.nan 6).

(** The functions with the reference kernels in place. *)
Definition mask_edges : image -> image -> Z -> bool -> result (ndarray bool * ndarray bool) :=
  get_mask_edges Kernels.binary_erosion Kernels.generate_spatial_bounding_box
    Kernels.SpatialCrop.

Definition surface_distance : ndarray bool -> ndarray bool -> Z -> bool -> string -> result distances :=
  get_surface_distance Kernels.distance_transform_edt Kernels.distance_transform_cdt.

(** The metrics [get_surface_distance] implements. *)
Definition distance_metrics : list string := ["euclidean"; "chessboard"; "taxicab"].

(** An image without cells, shape [[0]]. *)
Definition no_voxels : image := BoolImage (mk_ndarray [0] []).

(** A 5x5 image with a 3x3 square, one with a shifted square, an empty
    one, and a labelfield without the label 7. *)
Definition square_a : ndarray bool := mk_ndarray [5; 5]
  [false; false; false; false; false;
   false; true;  true;  true;  false;
   false; true;  true;  true;  false;
   false; true;  true;  true;  false;
   false; false; false; false; false].

Definition square_b : ndarray bool := mk_ndarray [5; 5]
  [false; false; false; false; false;
   false; false; false; false; false;
   false; false; true;  true;  true;
   false; false; true;  true;  true;
   false; false; true;  true;  true].

Definition blank : ndarray bool := full [5; 5] false.

Definition labels_2x2 : ndarray Z := mk_ndarray [2; 2] [0; 1; 2; 1]%Z.

(** ** [ignore_background] *)

Definition is_IndexError {A} (r : result A) : Prop :=
  exists msg, r = inl (IndexError msg).

(** [y.shape[k]]: indexing the shape tuple, [IndexError] past its end. *)
Definition shape_at {A} (y : ndarray A) (k : nat) : result nat :=
  match nth_error (shape y) k with
  | Some n => ret n
  | None => raise (IndexError "tuple index out of range")
  end.

(** [y[:, 1:]] for a tensor of rank two or more: in every batch row, the
    cells of channel 0 go and the cells of the other channels stay, in
    their order.  In torch the slice is a view on [y]; its values are what
    is modelled here. *)
Definition drop_first_channel {A} (y : ndarray A) : ndarray A :=
  match shape y with
  | b :: c :: rest =>
      mk_ndarray (b :: (c - 1) :: rest)
        (concat (map (skipn (numel rest)) (chunks b (c * numel rest) (data y))))
  | _ => y
  end.

(** Lines 39 and 40, for one tensor: [y[:, 1:] if y.shape[1] > 1 else y]. *)
Definition remove_background {A} (y : ndarray A) : result (ndarray A) :=
  c <- shape_at y 1 ;;
  ret (if 1 <? c then drop_first_channel y else y).

(** The ground truth is treated first (line 39), the predictions after it
    (line 40); the pair is returned predictions first. *)
Definition ignore_background {A B} (y_pred : ndarray A) (y : ndarray B)
  : result (ndarray A * ndarray B) :=
  y <- remove_background y ;;
  y_pred <- remove_background y_pred ;;
  ret (y_pred, y).

(** The number of channels [ignore_background] leaves of [c]. *)
Definition channels_after (c : nat) : nat := if 1 <? c then c - 1 else c.

(** [y'] holds the channels 1 and up of [y], of shape [b :: c :: rest]: the
    cell of [y'] in batch row [i], channel [k], at position [j] of the
    trailing axes is the cell of [y] in row [i], channel [k + 1], at [j]. *)
Definition channels_shifted {A} (y y' : ndarray A) (b c : nat) (rest : list nat) : Prop :=
  forall i k j, i < b -> k < c - 1 -> j < numel rest ->
    cell y' ((i * (c - 1) + k) * numel rest + j)
    = cell y ((i * c + (k + 1)) * numel rest + j).

(** ** Vocabulary of the further properties *)

(** The cells of [l] at the true positions of [m], in order. *)
Definition select_cells {A} (m : list bool) (l : list A) : list A :=
  map snd (filter (fun p => fst p) (combine m l)).

(** The shape of the counts a policy returns for scores of shape
    [b :: c :: rest], and the shape of the reduced scores: the same, but for
    "mean", whose [torch.where] broadcasts against [t_zero]. *)
Definition counts_shape (p : MetricReduction) (b c : nat) (rest : list nat) : list nat :=
  match p with
  | NONE => b :: c :: rest
  | MEAN | SUM => rest
  | MEAN_BATCH | SUM_BATCH => c :: rest
  | MEAN_CHANNEL | SUM_CHANNEL => b :: rest
  end.

Definition reduced_shape (p : MetricReduction) (b c : nat) (rest : list nat) : list nat :=
  match p with
  | MEAN => broadcast_one rest
  | _ => counts_shape p b c rest
  end.

(** The policies that sum along the class axis, axis 1. *)
Definition reduces_class_axis (p : MetricReduction) : bool :=
  match p with
  | MEAN | SUM | MEAN_CHANNEL | SUM_CHANNEL => true
  | _ => false
  end.

(** The counts of a result, or the exception. *)
Definition counts_of (r : result (Tensor * Tensor)) : result Tensor :=
  x <- r ;; ret (snd x).

(** A result of [get_mask_edges] with the two boundary masks exchanged. *)
Definition swap_edges (r : result (ndarray bool * ndarray bool))
  : result (ndarray bool * ndarray bool) :=
  x <- r ;; ret (snd x, fst x).

(** A 2x3x2 tensor of the integers 0 to 11, and a 2x1 tensor. *)
Definition iota_2x3x2 : ndarray Z :=
  mk_ndarray [2; 3; 2] [0; 1; 2; 3; 4; 5; 6; 7; 8; 9; 10; 11]%Z.

Definition single_channel : ndarray Z := mk_ndarray [2; 1] [5; 6]%Z.

(** ** Lists: blocks and lengths *)

Lemma chunks_same_lengths {A B} (k n : nat) :
  forall (l1 : list A) (l2 : list B),
    length l1 = length l2 -> same_lengths (chunks k n l1) (chunks k n l2).
Proof.
  induction k as [|k IH]; intros l1 l2 H; simpl.
  - constructor.
  - constructor.
    + now rewrite !length_firstn, H.
    + apply IH. now rewrite !length_skipn, H.
Qed.

Lemma zip_add_length (a b : list spec_float) :
  length (zip_add a b) = Nat.min (length a) (length b).
Proof.
  unfold zip_add. now rewrite length_map, length_combine.
Qed.

Lemma fold_zip_add_length (cs1 cs2 : list (list spec_float)) :
  same_lengths cs1 cs2 ->
  forall acc1 acc2, length acc1 = length acc2 ->
    length (fold_left zip_add cs1 acc1) = length (fold_left zip_add cs2 acc2).
Proof.
  induction 1 as [|c1 c2 cs1 cs2 Hc _ IH]; intros acc1 acc2 Hacc; simpl.
  - exact Hacc.
  - apply IH. now rewrite !zip_add_length, Hacc, Hc.
Qed.

Lemma sum_block_length (n inner : nat) (b1 b2 : list spec_float) :
  length b1 = length b2 ->
  length (sum_block n inner b1) = length (sum_block n inner b2).
Proof.
  intros H. unfold sum_block.
  apply fold_zip_add_length; [now apply chunks_same_lengths | reflexivity].
Qed.

Lemma sum_blocks_length (n inner : nat) (xs ys : list (list spec_float)) :
  same_lengths xs ys ->
  length (concat (map (sum_block n inner) xs)) = length (concat (map (sum_block n inner) ys)).
Proof.
  induction 1 as [|x y xs ys Hxy _ IH]; simpl.
  - reflexivity.
  - rewrite !length_app, IH. f_equal. now apply sum_block_length.
Qed.

(** ** Layouts: shape and number of stored cells *)

Lemma sum_dim_same_layout (d : nat) (a b : Tensor) :
  same_layout a b ->
  match sum_dim d a, sum_dim d b with
  | inr a', inr b' => same_layout a' b'
  | inl _, inl _ => True
  | _, _ => False
  end.
Proof.
  intros [Hs Hl]. unfold sum_dim. rewrite <- Hs.
  destruct ((d <? length (shape a)) || ((length (shape a) =? 0) && (d =? 0))); simpl.
  - split; simpl; [reflexivity|].
    apply sum_blocks_length. now apply chunks_same_lengths.
  - exact I.
Qed.

(** Summing succeeds along an axis the tensor has. *)
Lemma sum_dim_defined (d : nat) (t : Tensor) :
  d < ndim t ->
  exists t', sum_dim d t = inr t' /\
             shape t' = (firstn d (shape t) ++ skipn (S d) (shape t))%list.
Proof.
  intros H. unfold sum_dim, ndim in *.
  apply Nat.ltb_lt in H. rewrite H. simpl. eexists. split; reflexivity.
Qed.

Lemma masked_zero_layout (f : Tensor) : same_layout (masked_zero f (isnan f)) f.
Proof.
  split; simpl; [reflexivity|].
  now rewrite length_map, length_combine, length_map, Nat.min_id.
Qed.

Lemma not_nans_layout (f : Tensor) : same_layout (to_float (logical_not (isnan f))) f.
Proof.
  split; simpl; [reflexivity|]. now rewrite !length_map.
Qed.

Lemma guarded_mean_length (s cnt : Tensor) :
  length (data s) = length (data cnt) ->
  length (data (guarded_mean s cnt)) = length (data cnt).
Proof.
  intros H. unfold guarded_mean, where_one, gt_zero, tdiv. simpl.
  rewrite length_map, length_combine, !length_map, length_combine, H.
  now rewrite !Nat.min_id.
Qed.

(** ** The zero guard *)

(** A count that compares equal to zero is not greater than zero. *)
Lemma zero_count_not_positive (c : spec_float) :
  F32.eqb c F32.zero = true -> F32.ltb F32.zero c = false.
Proof.
  unfold F32.eqb, F32.ltb, F32.zero, SFeqb, SFltb.
  destruct c as [s|s| |s m e]; simpl; intros H; try reflexivity;
    destruct s; discriminate H.
Qed.

Lemma nth_error_map_combine {A B C} (g : A * B -> C) (la : list A) (lb : list B) :
  forall i, nth_error (map g (combine la lb)) i =
            match nth_error la i, nth_error lb i with
            | Some a, Some b => Some (g (a, b))
            | _, _ => None
            end.
Proof.
  revert lb. induction la as [|a la IH]; intros lb i.
  - destruct i; reflexivity.
  - destruct lb as [|b lb].
    + simpl. destruct i; simpl; [reflexivity|]. now destruct (nth_error la i).
    + destruct i; simpl; [reflexivity | apply IH].
Qed.

Lemma guarded_mean_zero (s cnt : Tensor) (i : nat) (c : spec_float) :
  length (data s) = length (data cnt) ->
  cell cnt i = Some c ->
  F32.eqb c F32.zero = true ->
  cell (guarded_mean s cnt) i = Some F32.zero.
Proof.
  intros Hl Hc Hz. unfold cell, guarded_mean, where_one, gt_zero, tdiv in *. simpl.
  rewrite nth_error_map_combine, nth_error_map, Hc. simpl.
  rewrite nth_error_map_combine, Hc.
  destruct (nth_error (data s) i) as [x|] eqn:Hx.
  - simpl. now rewrite (zero_count_not_positive _ Hz).
  - exfalso. apply nth_error_None in Hx.
    assert (i < length (data cnt)) by (apply nth_error_Some; congruence). lia.
Qed.

Lemma sum_dim_pair (d : nat) (a b : Tensor) :
  same_layout a b -> d < ndim a ->
  exists a' b',
    sum_dim d a = inr a' /\ sum_dim d b = inr b' /\ same_layout a' b' /\
    shape a' = (firstn d (shape a) ++ skipn (S d) (shape a))%list.
Proof.
  intros Hab Hd.
  destruct (sum_dim_defined d a Hd) as (a' & Ha & Hsa).
  assert (Hd' : d < ndim b) by (unfold ndim in *; now rewrite <- (proj1 Hab)).
  destruct (sum_dim_defined d b Hd') as (b' & Hb & _).
  pose proof (sum_dim_same_layout d a b Hab) as H. rewrite Ha, Hb in H.
  now exists a', b'.
Qed.

Lemma same_layout_sym {A B} (a : ndarray A) (b : ndarray B) :
  same_layout a b -> same_layout b a.
Proof. intros [H1 H2]. now split. Qed.

Lemma same_layout_trans {A B C} (a : ndarray A) (b : ndarray B) (c : ndarray C) :
  same_layout a b -> same_layout b c -> same_layout a c.
Proof. intros [H1 H2] [H3 H4]. split; congruence. Qed.

(** With a shape of rank one or more, the guarded mean keeps the layout of
    the counts. *)
Lemma guarded_mean_layout (s cnt : Tensor) :
  same_layout s cnt -> shape s <> [] -> same_layout (guarded_mean s cnt) cnt.
Proof.
  intros [Hs Hl] Hne. split.
  - simpl. rewrite <- Hs. now destruct (shape s).
  - now apply guarded_mean_length.
Qed.

(** *** Tensors of NaN only *)

Lemma all_nan_repeat (l : list spec_float) :
  Forall (fun x => F32.is_nan x = true) l -> l = repeat F32.nan (length l).
Proof.
  induction 1 as [|x l Hx _ IH]; simpl; [reflexivity|].
  rewrite <- IH. destruct x; try discriminate Hx. reflexivity.
Qed.

Lemma combine_repeat {A B} (a : A) (b : B) (n : nat) :
  combine (repeat a n) (repeat b n) = repeat (a, b) n.
Proof. induction n; simpl; congruence. Qed.

Lemma chunks_repeat {A} (x : A) (n : nat) :
  forall k, chunks k n (repeat x (k * n)) = repeat (repeat x n) k.
Proof.
  induction k as [|k IH]; simpl; [reflexivity|].
  rewrite repeat_app.
  rewrite firstn_app, skipn_app, repeat_length, Nat.sub_diag.
  rewrite firstn_all2, skipn_all2 by (rewrite repeat_length; lia).
  simpl. now rewrite app_nil_r, IH.
Qed.

Lemma zip_add_zeros (n : nat) :
  zip_add (repeat F32.zero n) (repeat F32.zero n) = repeat F32.zero n.
Proof.
  unfold zip_add. now rewrite combine_repeat, map_repeat.
Qed.

Lemma sum_block_zeros (n inner : nat) :
  sum_block n inner (repeat F32.zero (n * inner)) = repeat F32.zero inner.
Proof.
  unfold sum_block. rewrite chunks_repeat.
  induction n as [|n IH]; simpl; [reflexivity|].
  now rewrite zip_add_zeros.
Qed.

(** The batch sum of a well-formed tensor of zeros is a tensor of zeros. *)
Lemma sum_dim0_zeros (b : nat) (s : list nat) :
  sum_dim 0 (full (b :: s) F32.zero) = inr (full s F32.zero).
Proof.
  unfold sum_dim, full, ret. simpl.
  rewrite firstn_all2 by (rewrite repeat_length; lia).
  now rewrite sum_block_zeros, app_nil_r.
Qed.

Lemma guarded_mean_zeros (s : list nat) :
  s <> [] ->
  guarded_mean (full s F32.zero) (full s F32.zero) = full s F32.zero.
Proof.
  intros Hs. unfold guarded_mean, where_one, gt_zero, tdiv, amap, amap2, full. simpl.
  rewrite combine_repeat, !map_repeat, combine_repeat, map_repeat. simpl.
  now destruct s.
Qed.

Lemma zeroed_all_nan (f : Tensor) :
  wf f -> Forall (fun x => F32.is_nan x = true) (data f) ->
  masked_zero f (isnan f) = full (shape f) F32.zero /\
  to_float (logical_not (isnan f)) = full (shape f) F32.zero.
Proof.
  intros Hwf Hnan. unfold wf, size in Hwf.
  destruct f as [s d]. simpl in *.
  rewrite (all_nan_repeat _ Hnan), Hwf.
  unfold masked_zero, to_float, logical_not, isnan, amap, amap2, full. simpl.
  now rewrite !map_repeat, combine_repeat, map_repeat.
Qed.

(** ** Properties of [do_metric_reduction] *)

(** C1.  On the 2x2 scores [[1, NaN], [3, 4]] the policy "mean" returns one
    cell, 2.25, and the count 2: the channel averages of the two rows are
    1 and 3.5 with counts 1 and 2, the batch average of these is 2.25, and
    the returned count is the number of rows that contributed, not the
    number 3 of entries that are not NaN. *)
Theorem C1_mean_of_2x2_example :
  returned (do_metric_reduction scores_c1 (ByName "mean"))
    = inr (mk_ndarray [1] [f32_2_25], mk_ndarray [] [F32.of_Z 2])
  /\ returned (do_metric_reduction scores_c1 (ByName "mean_channel"))
    = inr (mk_ndarray [2] [F32.of_Z 1; f32_3_5],
           mk_ndarray [2] [F32.of_Z 1; F32.of_Z 2])
  /\ has_value f32_2_25 (9 # 4) /\ has_value f32_3_5 (7 # 2)
  /\ has_value (F32.of_Z 2) (2 # 1)
  /\ count_not_nan scores_c1 = 3.
Proof.
  repeat split; vm_compute; reflexivity.
Qed.

(** The three policies that average. *)
Lemma mean_family_cases (p : MetricReduction) :
  In p [MEAN; MEAN_BATCH; MEAN_CHANNEL] -> p = MEAN \/ p = MEAN_BATCH \/ p = MEAN_CHANNEL.
Proof.
  simpl. intuition congruence.
Qed.

Lemma rank2_shape {A} (f : ndarray A) :
  2 <= ndim f -> exists b c rest, shape f = b :: c :: rest.
Proof.
  unfold ndim. destruct (shape f) as [|b [|c rest]]; simpl; try lia.
  intros _. now exists b, c, rest.
Qed.

(** C2.  For a score tensor of rank two or more and each of the policies
    mean, mean_batch and mean_channel, the reduction returns a reduced
    tensor and counts with one cell each per output position, and every
    output cell whose count is zero is (positive) zero.  A well-formed
    tensor of NaN only reduces under mean_batch to zeros, with counts all
    zero. *)
Theorem C2_zero_guard (f : Tensor) (r : reduction_arg) (p : MetricReduction)
    (Hrank : 2 <= ndim f)
    (Hcall : MetricReduction_call r = inr p)
    (Hmean : In p [MEAN; MEAN_BATCH; MEAN_CHANNEL]) :
  exists out cnt,
    returned (do_metric_reduction f r) = inr (out, cnt)
    /\ length (data out) = length (data cnt)
    /\ (forall i c, cell cnt i = Some c -> F32.eqb c F32.zero = true ->
                    cell out i = Some F32.zero)
    /\ (p = MEAN_BATCH -> wf f ->
        Forall (fun x => F32.is_nan x = true) (data f) ->
        out = full (tl (shape f)) F32.zero /\ cnt = full (tl (shape f)) F32.zero).
Proof.
  unfold do_metric_reduction. simpl. rewrite Hcall. simpl.
  set (f0 := masked_zero f (isnan f)).
  set (nn := to_float (logical_not (isnan f))).
  assert (Hlay : same_layout nn f0).
  { eapply same_layout_trans; [apply not_nans_layout|].
    apply same_layout_sym, masked_zero_layout. }
  assert (Hnd : ndim nn = ndim f) by reflexivity.
  destruct (rank2_shape f Hrank) as (b & c & rest & Hshape).
  destruct (mean_family_cases p Hmean) as [-> | [-> | ->]]; simpl.
  - (* mean: the channel average, then the batch average *)
    destruct (sum_dim_pair 1 nn f0 Hlay ltac:(lia)) as (c1 & s1 & Hc1 & Hs1 & L1 & Sh1).
    rewrite Hc1, Hs1. simpl.
    assert (Sh1' : shape c1 = b :: rest) by (rewrite Sh1; simpl; now rewrite Hshape).
    assert (L2 : same_layout (to_float (gt_zero c1)) (guarded_mean s1 c1)).
    { apply same_layout_sym.
      eapply same_layout_trans.
      - apply guarded_mean_layout; [now apply same_layout_sym|].
        rewrite <- (proj1 L1), Sh1'. discriminate.
      - split; simpl; [reflexivity | now rewrite !length_map]. }
    destruct (sum_dim_pair 0 _ _ L2) as (c2 & s2 & Hc2 & Hs2 & L3 & _).
    { unfold ndim. simpl. rewrite Sh1'. simpl. lia. }
    rewrite Hc2, Hs2. simpl.
    exists (guarded_mean s2 c2), c2.
    assert (Hlen : length (data s2) = length (data c2)) by (symmetry; apply L3).
    split; [reflexivity|]. split; [now apply guarded_mean_length|].
    split; [intros i x Hx Hz; now apply guarded_mean_zero with (c := x)|].
    intros H. discriminate H.
  - (* mean_batch *)
    destruct (sum_dim_pair 0 nn f0 Hlay ltac:(lia)) as (c1 & s1 & Hc1 & Hs1 & L1 & Sh1).
    rewrite Hc1, Hs1. simpl.
    exists (guarded_mean s1 c1), c1.
    assert (Hlen : length (data s1) = length (data c1)) by (symmetry; apply L1).
    split; [reflexivity|]. split; [now apply guarded_mean_length|].
    split; [intros i x Hx Hz; now apply guarded_mean_zero with (c := x)|].
    intros _ Hwf Hnan.
    destruct (zeroed_all_nan f Hwf Hnan) as [Ef En].
    fold f0 in Ef. fold nn in En.
    rewrite En, Hshape, sum_dim0_zeros in Hc1.
    rewrite Ef, Hshape, sum_dim0_zeros in Hs1.
    injection Hc1 as <-. injection Hs1 as <-.
    rewrite Hshape. simpl.
    split; [apply guarded_mean_zeros; discriminate | reflexivity].
  - (* mean_channel *)
    destruct (sum_dim_pair 1 nn f0 Hlay ltac:(lia)) as (c1 & s1 & Hc1 & Hs1 & L1 & Sh1).
    rewrite Hc1, Hs1. simpl.
    exists (guarded_mean s1 c1), c1.
    assert (Hlen : length (data s1) = length (data c1)) by (symmetry; apply L1).
    split; [reflexivity|]. split; [now apply guarded_mean_length|].
    split; [intros i x Hx Hz; now apply guarded_mean_zero with (c := x)|].
    intros H. discriminate H.
Qed.

(** The zero guard on a 2x3 tensor of NaN only, policy "mean_batch". *)
Lemma C2_zero_guard_witness :
  2 <= ndim scores_nan
  /\ MetricReduction_call (ByName "mean_batch") = inr MEAN_BATCH
  /\ In MEAN_BATCH [MEAN; MEAN_BATCH; MEAN_CHANNEL]
  /\ exists out cnt,
      returned (do_metric_reduction scores_nan (ByName "mean_batch")) = inr (out, cnt)
      /\ out = full [3] F32.zero /\ cnt = full [3] F32.zero
      /\ (forall i c, cell cnt i = Some c -> F32.eqb c F32.zero = true ->
                      cell out i = Some F32.zero).
Proof.
  assert (H1 : 2 <= ndim scores_nan) by (vm_compute; lia).
  assert (H2 : MetricReduction_call (ByName "mean_batch") = inr MEAN_BATCH) by reflexivity.
  assert (H3 : In MEAN_BATCH [MEAN; MEAN_BATCH; MEAN_CHANNEL]) by (simpl; auto).
  refine (conj H1 (conj H2 (conj H3 _))).
  destruct (C2_zero_guard scores_nan (ByName "mean_batch") MEAN_BATCH H1 H2 H3)
    as (out & cnt & Hret & _ & Hguard & Hnan).
  assert (Hall : Forall (fun x => F32.is_nan x = true) (data scores_nan))
    by (repeat constructor).
  destruct (Hnan eq_refl eq_refl Hall) as [Hout Hcnt].
  exists out, cnt. exact (conj Hret (conj Hout (conj Hcnt Hguard))).
Defined.

(** *** NaN-zeroing *)

Lemma map_combine_self {A B C} (h : A * B -> C) (g : A -> B) (l : list A) :
  map h (combine l (map g l)) = map (fun x => h (x, g x)) l.
Proof.
  induction l as [|x l IH]; simpl; congruence.
Qed.

(** Line 66 leaves every cell that is not NaN as it is and writes zero into
    the others. *)
Lemma masked_zero_data (f : Tensor) :
  data (masked_zero f (isnan f)) = map zero_nan (data f).
Proof.
  unfold masked_zero, isnan, amap2, amap. simpl.
  now rewrite map_combine_self.
Qed.

Lemma zero_nan_not_nan (x : spec_float) : F32.is_nan (zero_nan x) = false.
Proof. now destruct x. Qed.

Lemma zero_nan_idempotent (x : spec_float) : zero_nan (zero_nan x) = zero_nan x.
Proof. now destruct x. Qed.

Lemma zero_nan_fixed (x : spec_float) : F32.is_nan x = false -> zero_nan x = x.
Proof. unfold zero_nan. now intros ->. Qed.

(** A string that is no member's value is refused by the enumeration. *)
Lemma MetricReduction_call_unknown (s : string) :
  ~ In s reduction_names ->
  MetricReduction_call (ByName s)
  = inl (ValueError ("'" ++ s ++ "' is not a valid MetricReduction")).
Proof.
  intros H. unfold MetricReduction_call.
  destruct (find _ MetricReduction_members) as [m|] eqn:E; [|reflexivity].
  apply find_some in E. destruct E as [_ E]. apply String.eqb_eq in E.
  exfalso. apply H. rewrite <- E. unfold reduction_names.
  apply in_map. destruct m; simpl; auto 10.
Qed.

(** C3.  For every score tensor and every policy string outside the seven
    names, the reduction raises the unsupported-reduction error (a
    ValueError), and the caller's tensor is then already zeroed at its NaN
    entries: same shape, as many cells, every cell that was NaN now zero,
    every other cell untouched, no NaN left. *)
Theorem C3_unsupported_policy_raises_after_zeroing (f : Tensor) (s : string)
    (Hbogus : ~ In s reduction_names) :
  is_ValueError (returned (do_metric_reduction f (ByName s)))
  /\ shape (scores_after (do_metric_reduction f (ByName s))) = shape f
  /\ length (data (scores_after (do_metric_reduction f (ByName s)))) = length (data f)
  /\ (forall i x, cell f i = Some x ->
        cell (scores_after (do_metric_reduction f (ByName s))) i
        = Some (if F32.is_nan x then F32.zero else x))
  /\ Forall (fun x => F32.is_nan x = false)
            (data (scores_after (do_metric_reduction f (ByName s)))).
Proof.
  unfold do_metric_reduction. cbn [scores_after returned].
  rewrite (MetricReduction_call_unknown s Hbogus).
  split; [eexists; reflexivity|].
  split; [reflexivity|].
  unfold cell. rewrite masked_zero_data.
  split; [now rewrite length_map|].
  split.
  - intros i x Hx. now rewrite nth_error_map, Hx.
  - apply Forall_map, Forall_forall. intros x _. apply zero_nan_not_nan.
Qed.

(** The policy "bogus" on [[1, NaN], [3, 4]]: the call raises, and the NaN
    at position 1 is zero afterwards. *)
Lemma C3_unsupported_policy_witness :
  ~ In "bogus" reduction_names
  /\ is_ValueError (returned (do_metric_reduction scores_c1 (ByName "bogus")))
  /\ cell (scores_after (do_metric_reduction scores_c1 (ByName "bogus"))) 1 = Some F32.zero.
Proof.
  assert (H : ~ In "bogus" reduction_names).
  { simpl. intros [E|[E|[E|[E|[E|[E|[E|[]]]]]]]]; discriminate E. }
  pose proof (C3_unsupported_policy_raises_after_zeroing scores_c1 "bogus" H)
    as (Hraise & _ & _ & Hcells & _).
  refine (conj H (conj Hraise _)).
  exact (Hcells 1 F32.nan eq_refl).
Defined.

(** C4.  The two-stage "mean" and the single-pass joint mean differ: on the
    well-formed 2x2 scores [[1, NaN], [3, 4]], whose rows have one and two
    valid entries, the two-stage mean is 2.25 and the joint mean (8/3,
    rounded) is greater; so the two are not equal as functions. *)
Theorem C4_two_stage_mean_is_not_joint_mean :
  (exists f x y,
      wf f /\ two_stage_mean f = Some x /\ single_pass_mean f = Some y
      /\ has_value x (9 # 4) /\ F32.ltb x y = true /\ F32.eqb x y = false)
  /\ two_stage_mean <> single_pass_mean.
Proof.
  split.
  - exists scores_c1, f32_2_25, (S754_finite false 11184811 (-22)).
    repeat split; vm_compute; reflexivity.
  - intros E.
    assert (H : two_stage_mean scores_c1 = single_pass_mean scores_c1) by now rewrite E.
    vm_compute in H. discriminate H.
Qed.

(** *** Policy [none] *)

Lemma reduce_none_eq (scores : Tensor) :
  reduce_none scores =
  inr (masked_zero scores (isnan scores), to_float (logical_not (isnan scores))).
Proof. reflexivity. Qed.

(** Zeroing a zeroed tensor changes nothing. *)
Lemma masked_zero_idempotent (f : Tensor) :
  masked_zero (masked_zero f (isnan f)) (isnan (masked_zero f (isnan f)))
  = masked_zero f (isnan f).
Proof.
  set (f0 := masked_zero f (isnan f)).
  assert (E : data (masked_zero f0 (isnan f0)) = data f0).
  { rewrite masked_zero_data. unfold f0. rewrite masked_zero_data, map_map.
    apply map_ext. intros x. apply zero_nan_idempotent. }
  unfold masked_zero, amap2 in *. simpl in *. now rewrite E.
Qed.

(** The indicator of a zeroed tensor is one everywhere. *)
Lemma not_nans_after_zeroing (f : Tensor) :
  to_float (logical_not (isnan (masked_zero f (isnan f)))) = amap (fun _ => F32.one) f.
Proof.
  unfold to_float, logical_not, isnan, amap. simpl shape. cbn [data].
  f_equal. fold (isnan f). rewrite masked_zero_data, !map_map.
  apply map_ext. intros x. now rewrite zero_nan_not_nan.
Qed.

Lemma map_eq_Forall {A B} (g h : A -> B) (l : list A) :
  map g l = map h l <-> Forall (fun x => g x = h x) l.
Proof.
  induction l as [|x l IH]; simpl.
  - split; [constructor | reflexivity].
  - split.
    + intros E. injection E as E1 E2. constructor; [assumption | now apply IH].
    + intros H. inversion H; subst. f_equal; [assumption | now apply IH].
Qed.

Lemma indicator_one_iff (x : spec_float) :
  F32.of_bool (negb (F32.is_nan x)) = F32.one <-> F32.is_nan x = false.
Proof.
  destruct (F32.is_nan x); simpl; split; intros H; try reflexivity; discriminate H.
Qed.

(** C5 (as amended).  For every score tensor, policy "none" applied twice
    returns the same reduced tensor as applied once, since NaN-zeroing is
    idempotent, but the second not_nans indicator is one everywhere; the
    two full results are equal exactly when the scores hold no NaN. *)
Theorem C5_none_twice_same_tensor_fresh_indicator (scores : Tensor) :
  exists f1 nn1,
    reduce_none scores = inr (f1, nn1)
    /\ reduce_none_twice scores = inr (f1, amap (fun _ => F32.one) scores)
    /\ (reduce_none_twice scores = reduce_none scores
        <-> Forall (fun x => F32.is_nan x = false) (data scores)).
Proof.
  exists (masked_zero scores (isnan scores)), (to_float (logical_not (isnan scores))).
  assert (E2 : reduce_none_twice scores
               = inr (masked_zero scores (isnan scores), amap (fun _ => F32.one) scores)).
  { unfold reduce_none_twice. rewrite reduce_none_eq. simpl bind. cbn [fst].
    rewrite reduce_none_eq, masked_zero_idempotent, not_nans_after_zeroing.
    reflexivity. }
  split; [apply reduce_none_eq|]. split; [exact E2|].
  rewrite E2, reduce_none_eq.
  unfold to_float, logical_not, isnan, amap. cbn [shape data]. rewrite !map_map.
  split.
  - intros E. injection E as E.
    apply map_eq_Forall in E.
    eapply Forall_impl; [|exact E].
    intros x Hx. apply indicator_one_iff. now symmetry.
  - intros H. do 3 apply f_equal. apply map_eq_Forall.
    eapply Forall_impl; [|exact H].
    intros x Hx. symmetry. now apply indicator_one_iff.
Qed.

(** C5, as stated, fails on [[1, NaN]]: the first pass reports the NaN in
    its indicator, the second pass sees the zero written in its place. *)
Lemma C5_none_twice_counterexample :
  reduce_none_twice scores_c5 <> reduce_none scores_c5
  /\ reduce_none scores_c5
     = inr (mk_ndarray [1; 2] [F32.one; F32.zero], mk_ndarray [1; 2] [F32.one; F32.zero])
  /\ reduce_none_twice scores_c5
     = inr (mk_ndarray [1; 2] [F32.one; F32.zero], mk_ndarray [1; 2] [F32.one; F32.one]).
Proof.
  split; [|split]; vm_compute; [intros H; discriminate H | reflexivity | reflexivity].
Qed.

(** ** Properties of [get_mask_edges] *)

Lemma shape_eqb_refl (s : list nat) : shape_eqb s s = true.
Proof. unfold shape_eqb. now destruct (list_eq_dec Nat.eq_dec s s). Qed.

Lemma binarize_shape (im : image) (label_idx : Z) :
  shape (binarize im label_idx) = image_shape im.
Proof. now destruct im. Qed.

(** The guard of line 145 lets well-sized images of one shape through. *)
Lemma size_guard_passes (seg_pred seg_gt : image) :
  image_size seg_pred <> 0 -> image_shape seg_pred = image_shape seg_gt ->
  (image_size seg_pred =? 0) || negb (shape_eqb (image_shape seg_pred) (image_shape seg_gt))
  = false.
Proof.
  intros Hsize Hshape. rewrite <- Hshape, shape_eqb_refl.
  apply Nat.eqb_neq in Hsize. now rewrite Hsize.
Qed.

(** C6 (as amended).  For every pair of masks of one shape with at least
    one voxel, and every label_idx: if the union of the binarized masks has
    no true voxel and crop is true, the result is the pair of all-false
    masks of the input shape, whatever the erosion, bounding-box and
    cropping kernels are: none of them is consulted. *)
Theorem C6_empty_union_returns_false_masks
    (binary_erosion : ndarray bool -> ndarray bool)
    (generate_spatial_bounding_box : ndarray bool -> list nat * list nat)
    (SpatialCrop : list nat -> list nat -> ndarray bool -> ndarray bool)
    (seg_pred seg_gt : image) (label_idx : Z)
    (Hsize : image_size seg_pred <> 0)
    (Hshape : image_shape seg_pred = image_shape seg_gt)
    (Hempty : any (logical_or (binarize seg_pred label_idx) (binarize seg_gt label_idx))
              = false) :
  get_mask_edges binary_erosion generate_spatial_bounding_box SpatialCrop
    seg_pred seg_gt label_idx true
  = inr (full (image_shape seg_pred) false, full (image_shape seg_gt) false)
  /\ all_false (full (image_shape seg_pred) false)
  /\ wf (full (image_shape seg_pred) false).
Proof.
  split; [|split].
  - unfold get_mask_edges.
    rewrite (size_guard_passes seg_pred seg_gt Hsize Hshape), Hempty. simpl.
    unfold zeros_like. now rewrite !binarize_shape.
  - unfold all_false, full. simpl. apply Forall_forall.
    intros b Hb. now apply repeat_spec in Hb.
  - unfold wf, size, full. simpl. apply repeat_length.
Qed.

(** A 2x2 labelfield without the label 7 against an all-false mask. *)
Lemma C6_empty_union_witness :
  image_size (LabelImage labels_2x2) <> 0
  /\ image_shape (LabelImage labels_2x2) = image_shape (BoolImage (full [2; 2] false))
  /\ mask_edges (LabelImage labels_2x2) (BoolImage (full [2; 2] false)) 7 true
     = inr (full [2; 2] false, full [2; 2] false).
Proof.
  assert (H1 : image_size (LabelImage labels_2x2) <> 0) by (vm_compute; lia).
  assert (H2 : image_shape (LabelImage labels_2x2)
               = image_shape (BoolImage (full [2; 2] false))) by reflexivity.
  refine (conj H1 (conj H2 _)).
  exact (proj1 (C6_empty_union_returns_false_masks
                  Kernels.binary_erosion Kernels.generate_spatial_bounding_box
                  Kernels.SpatialCrop
                  (LabelImage labels_2x2) (BoolImage (full [2; 2] false)) 7
                  H1 H2 eq_refl)).
Defined.

(** C6, as stated, fails on masks without voxels: they have one shape and
    their union has no true voxel, yet the guard of line 145 raises. *)
Lemma C6_no_voxels_counterexample :
  image_shape no_voxels = image_shape no_voxels
  /\ any (logical_or (binarize no_voxels 1) (binarize no_voxels 1)) = false
  /\ mask_edges no_voxels no_voxels 1 true
     = inl (ValueError "Labelfields should have same shape (and non-zero number of elements)")
  /\ mask_edges no_voxels no_voxels 1 true
     <> inr (full (image_shape no_voxels) false, full (image_shape no_voxels) false).
Proof.
  repeat split. vm_compute. intros H. discriminate H.
Qed.

(** Exclusive or with the eroded mask keeps the result inside the mask, as
    soon as the eroded mask is inside it. *)
Lemma edges_subset (erosion : ndarray bool -> ndarray bool) (seg : ndarray bool) :
  subset_of (erosion seg) seg -> subset_of (edges_of erosion seg) seg.
Proof.
  intros Hsub i. unfold edges_of, logical_xor, amap2, cell. simpl.
  rewrite nth_error_map_combine.
  destruct (nth_error (data (erosion seg)) i) as [e|] eqn:He; [|discriminate].
  destruct (nth_error (data seg) i) as [v|] eqn:Hv; [|discriminate].
  simpl. intros H.
  destruct e.
  - specialize (Hsub i). unfold cell in Hsub. rewrite He, Hv in Hsub. now apply Hsub.
  - destruct v; [reflexivity | discriminate H].
Qed.

(** C9.  For masks of one shape with at least one voxel and any label_idx,
    with crop false, [get_mask_edges] returns two boundary masks, each
    inside its binarized source mask voxel by voxel, provided the erosion
    kernel returns a mask inside its input. *)
Theorem C9_boundaries_inside_masks
    (binary_erosion : ndarray bool -> ndarray bool)
    (generate_spatial_bounding_box : ndarray bool -> list nat * list nat)
    (SpatialCrop : list nat -> list nat -> ndarray bool -> ndarray bool)
    (seg_pred seg_gt : image) (label_idx : Z)
    (Herosion : forall m, subset_of (binary_erosion m) m)
    (Hsize : image_size seg_pred <> 0)
    (Hshape : image_shape seg_pred = image_shape seg_gt) :
  exists edges_pred edges_gt,
    get_mask_edges binary_erosion generate_spatial_bounding_box SpatialCrop
      seg_pred seg_gt label_idx false = inr (edges_pred, edges_gt)
    /\ subset_of edges_pred (binarize seg_pred label_idx)
    /\ subset_of edges_gt (binarize seg_gt label_idx).
Proof.
  exists (edges_of binary_erosion (binarize seg_pred label_idx)),
         (edges_of binary_erosion (binarize seg_gt label_idx)).
  split; [|split].
  - unfold get_mask_edges.
    now rewrite (size_guard_passes seg_pred seg_gt Hsize Hshape).
  - apply edges_subset, Herosion.
  - apply edges_subset, Herosion.
Qed.

(** The reference erosion returns a mask inside its input. *)
Lemma reference_erosion_subset (m : ndarray bool) :
  subset_of (Kernels.binary_erosion m) m.
Proof.
  intros i. unfold Kernels.binary_erosion, Kernels.indexed, cell. simpl.
  rewrite nth_error_map_combine.
  destruct (nth_error (data m) i) as [v|]; [|discriminate].
  destruct (nth_error (seq 0 (length (data m))) i); [|discriminate].
  simpl. destruct v; [reflexivity | discriminate].
Qed.

(** The two squares, with the reference erosion. *)
Lemma C9_boundaries_witness :
  image_size (BoolImage square_a) <> 0
  /\ image_shape (BoolImage square_a) = image_shape (BoolImage square_b)
  /\ exists edges_pred edges_gt,
      mask_edges (BoolImage square_a) (BoolImage square_b) 1 false
      = inr (edges_pred, edges_gt)
      /\ subset_of edges_pred square_a /\ subset_of edges_gt square_b.
Proof.
  assert (H1 : image_size (BoolImage square_a) <> 0) by (vm_compute; lia).
  assert (H2 : image_shape (BoolImage square_a) = image_shape (BoolImage square_b))
    by reflexivity.
  refine (conj H1 (conj H2 _)).
  exact (C9_boundaries_inside_masks
           Kernels.binary_erosion Kernels.generate_spatial_bounding_box
           Kernels.SpatialCrop (BoolImage square_a) (BoolImage square_b) 1
           reference_erosion_subset H1 H2).
Defined.

(** ** Properties of [get_surface_distance] *)

Lemma inf_like_data (a : ndarray bool) :
  data (inf_like a) = repeat F64.inf (length (data a)).
Proof.
  unfold inf_like, amap. simpl.
  induction (data a) as [|b l IH]; simpl; [reflexivity | now rewrite IH].
Qed.

(** Picking from a list of equal blocks the ones at the true cells. *)
Lemma select_repeat {A} (v : A) (l : list bool) :
  map snd (filter (fun p => fst p) (combine l (repeat v (length l))))
  = repeat v (count_true l).
Proof.
  unfold count_true.
  induction l as [|b l IH]; simpl; [reflexivity|].
  destruct b; simpl; now rewrite IH.
Qed.

Lemma concat_singletons {A} (v : A) (n : nat) : concat (repeat [v] n) = repeat v n.
Proof. induction n; simpl; congruence. Qed.

Lemma chunks_singletons {A} (v : A) (n : nat) : chunks n 1 (repeat v n) = repeat [v] n.
Proof.
  pose proof (chunks_repeat v 1 n) as H. now rewrite Nat.mul_1_r in H.
Qed.

(** With nothing to measure against, every true cell of the mask samples
    an infinite distance. *)
Lemma bool_index_inf_like (edges_pred edges_gt : ndarray bool) :
  wf edges_pred -> wf edges_gt -> shape edges_pred = shape edges_gt ->
  bool_index (inf_like edges_gt) edges_pred
  = inr (mk_ndarray [count_true (data edges_pred)]
           (repeat F64.inf (count_true (data edges_pred)))).
Proof.
  intros Hp Hg Hs. unfold wf, size in *. unfold bool_index, ndim, size.
  replace (shape (inf_like edges_gt)) with (shape edges_pred) by (now rewrite Hs).
  rewrite firstn_all, shape_eqb_refl, skipn_all. simpl numel.
  rewrite inf_like_data, Hg, <- Hs, <- Hp.
  rewrite chunks_singletons, select_repeat, concat_singletons, repeat_length.
  reflexivity.
Qed.

(** C7 (as amended).  If boundary_pred has no true voxel,
    [get_surface_distance] returns the empty sequence, whatever boundary_gt
    is.  If boundary_pred has a true voxel, boundary_gt has none and the
    two masks have the same shape, it returns a sequence of +infinity only,
    with one entry per true voxel of boundary_pred. *)
Theorem C7_empty_boundaries
    (distance_transform_edt : ndarray bool -> ndarray spec_float)
    (distance_transform_cdt : ndarray bool -> string -> ndarray Z)
    (edges_pred edges_gt : ndarray bool) (label_idx : Z) (crop : bool)
    (distance_metric : string) :
  (any edges_pred = false ->
   get_surface_distance distance_transform_edt distance_transform_cdt
     edges_pred edges_gt label_idx crop distance_metric
   = inr (Float64Array (mk_ndarray [0] [])))
  /\ (any edges_pred = true -> any edges_gt = false ->
      wf edges_pred -> wf edges_gt -> shape edges_pred = shape edges_gt ->
      get_surface_distance distance_transform_edt distance_transform_cdt
        edges_pred edges_gt label_idx crop distance_metric
      = inr (Float64Array
               (mk_ndarray [count_true (data edges_pred)]
                  (repeat F64.inf (count_true (data edges_pred)))))).
Proof.
  unfold get_surface_distance. split.
  - intros ->. reflexivity.
  - intros -> -> Hp Hg Hs. simpl.
    now rewrite (bool_index_inf_like edges_pred edges_gt Hp Hg Hs).
Qed.

(** An empty prediction boundary, and the 3x3 square against an empty
    ground-truth boundary: nine infinite distances. *)
Lemma C7_empty_boundaries_witness :
  (any blank = false /\ surface_distance blank square_b 1 true "euclidean"
                        = inr (Float64Array (mk_ndarray [0] [])))
  /\ (any square_a = true /\ any blank = false /\ wf square_a /\ wf blank
      /\ shape square_a = shape blank
      /\ surface_distance square_a blank 1 true "euclidean"
         = inr (Float64Array (mk_ndarray [9] (repeat F64.inf 9)))).
Proof.
  pose proof (C7_empty_boundaries Kernels.distance_transform_edt
                Kernels.distance_transform_cdt blank square_b 1 true "euclidean") as [H1 _].
  pose proof (C7_empty_boundaries Kernels.distance_transform_edt
                Kernels.distance_transform_cdt square_a blank 1 true "euclidean") as [_ H2].
  split.
  - split; [reflexivity | exact (H1 eq_refl)].
  - refine (conj eq_refl (conj eq_refl (conj eq_refl (conj eq_refl (conj eq_refl _))))).
    exact (H2 eq_refl eq_refl eq_refl eq_refl eq_refl).
Defined.

(** C7, as stated, fails on boundary masks of different shapes, which
    lines 204 to 213 never compare: the infinite field has the shape of
    boundary_gt, and indexing it with a 5x5 boundary_pred when it has shape
    [[3]] raises IndexError, while a boundary_pred of shape [[2]] with one
    true voxel picks a whole row of three from a 2x3 field. *)
Lemma C7_shape_mismatch_counterexample :
  (any square_a = true /\ any (full [3] false) = false
   /\ wf square_a /\ wf (full [3] false)
   /\ is_IndexError (surface_distance square_a (full [3] false) 1 true "euclidean")
   /\ surface_distance square_a (full [3] false) 1 true "euclidean"
      <> inr (Float64Array
                (mk_ndarray [count_true (data square_a)]
                   (repeat F64.inf (count_true (data square_a))))))
  /\ (any (mk_ndarray [2] [false; true]) = true /\ any (full [2; 3] false) = false
      /\ count_true (data (mk_ndarray [2] [false; true])) = 1
      /\ surface_distance (mk_ndarray [2] [false; true]) (full [2; 3] false)
           1 true "euclidean"
         = inr (Float64Array (mk_ndarray [1; 3] [F64.inf; F64.inf; F64.inf]))).
Proof.
  split.
  - refine (conj eq_refl (conj eq_refl (conj eq_refl (conj eq_refl _)))).
    split; [eexists; reflexivity|].
    vm_compute. intros H. discriminate H.
  - repeat split.
Qed.

Lemma unknown_metric_tests (m : string) :
  ~ In m distance_metrics ->
  String.eqb m "euclidean" = false
  /\ String.eqb m "chessboard" || String.eqb m "taxicab" = false.
Proof.
  intros H. unfold distance_metrics in H. simpl in H.
  split.
  - apply String.eqb_neq. intros E. apply H. now left.
  - apply orb_false_iff. split; apply String.eqb_neq; intros E; apply H; auto.
Qed.

(** C8 (as amended).  For every pair of boundary masks that both have a
    true voxel, and every distance_metric string other than "euclidean",
    "chessboard" and "taxicab", [get_surface_distance] fails with the
    unsupported-metric error (a ValueError). *)
Theorem C8_unknown_metric_raises
    (distance_transform_edt : ndarray bool -> ndarray spec_float)
    (distance_transform_cdt : ndarray bool -> string -> ndarray Z)
    (edges_pred edges_gt : ndarray bool) (label_idx : Z) (crop : bool)
    (distance_metric : string)
    (Hpred : any edges_pred = true)
    (Hgt : any edges_gt = true)
    (Hmetric : ~ In distance_metric distance_metrics) :
  get_surface_distance distance_transform_edt distance_transform_cdt
    edges_pred edges_gt label_idx crop distance_metric
  = inl (ValueError ("distance_metric " ++ distance_metric ++ " is not implemented.")).
Proof.
  unfold get_surface_distance. rewrite Hpred, Hgt. simpl.
  destruct (unknown_metric_tests distance_metric Hmetric) as [-> ->].
  reflexivity.
Qed.

(** The two squares with the metric "bogus". *)
Lemma C8_unknown_metric_witness :
  any square_a = true /\ any square_b = true /\ ~ In "bogus" distance_metrics
  /\ is_ValueError (surface_distance square_a square_b 1 true "bogus").
Proof.
  assert (H : ~ In "bogus" distance_metrics).
  { simpl. intros [E|[E|[E|[]]]]; discriminate E. }
  refine (conj eq_refl (conj eq_refl (conj H _))).
  eexists.
  exact (C8_unknown_metric_raises Kernels.distance_transform_edt
           Kernels.distance_transform_cdt square_a square_b 1 true "bogus"
           eq_refl eq_refl H).
Defined.

(** C8, as stated, fails when a boundary mask has no true voxel: the
    metric is then never looked at, and the call returns. *)
Lemma C8_empty_boundary_counterexample :
  ~ In "bogus" distance_metrics
  /\ surface_distance blank square_b 1 true "bogus" = inr (Float64Array (mk_ndarray [0] []))
  /\ surface_distance square_a blank 1 true "bogus"
     = inr (Float64Array (mk_ndarray [9] (repeat F64.inf 9)))
  /\ ~ is_ValueError (surface_distance blank square_b 1 true "bogus").
Proof.
  split; [|split; [|split]].
  - simpl. intros [E|[E|[E|[]]]]; discriminate E.
  - reflexivity.
  - vm_compute. reflexivity.
  - intros [msg H]. vm_compute in H. discriminate H.
Qed.

(** C10.  The result of [get_surface_distance] does not depend on label_idx
    and crop: two calls that differ only there return the same. *)
Theorem C10_label_idx_and_crop_unused
    (distance_transform_edt : ndarray bool -> ndarray spec_float)
    (distance_transform_cdt : ndarray bool -> string -> ndarray Z)
    (edges_pred edges_gt : ndarray bool) (distance_metric : string)
    (label_idx label_idx' : Z) (crop crop' : bool) :
  get_surface_distance distance_transform_edt distance_transform_cdt
    edges_pred edges_gt label_idx crop distance_metric
  = get_surface_distance distance_transform_edt distance_transform_cdt
      edges_pred edges_gt label_idx' crop' distance_metric.
Proof.
  reflexivity.
Qed.

(** ** The embedding at work *)

(** The specification's second worked example: policy "sum" on
    [[1, NaN], [3, 4]] gives 8 with count 3. *)
Example sum_of_2x2_example :
  returned (do_metric_reduction scores_c1 (ByName "sum"))
  = inr (mk_ndarray [] [F32.of_Z 8], mk_ndarray [] [F32.of_Z 3]).
Proof. vm_compute. reflexivity. Qed.

(** A class that is NaN in every batch row averages to zero, next to a
    class with a true average. *)
Example mean_batch_guard_example :
  returned (do_metric_reduction
              (mk_ndarray [2; 2] [F32.nan; F32.of_Z 1; F32.nan; F32.of_Z 2])
              (ByName "mean_batch"))
  = inr (mk_ndarray [2] [F32.zero; S754_finite false 12582912 (-23)],
         mk_ndarray [2] [F32.zero; F32.of_Z 2]).
Proof. vm_compute. reflexivity. Qed.

(** The default policy is "mean", and a member is as good as its name. *)
Example default_policy_is_mean :
  do_metric_reduction_default scores_c1 = do_metric_reduction scores_c1 (ByName "mean").
Proof. reflexivity. Qed.

(** The channel policies need the class axis. *)
Example rank_one_has_no_class_axis :
  returned (do_metric_reduction (mk_ndarray [2] [F32.of_Z 1; F32.nan]) (ByName "mean_channel"))
  = inl (IndexError "Dimension out of range (expected to be in range of [-1, 0], but got 1)").
Proof. vm_compute. reflexivity. Qed.

(** Uncropped, the boundaries of the two 3x3 squares are their rings. *)
Example square_rings :
  mask_edges (BoolImage square_a) (BoolImage square_b) 1 false
  = inr (mk_ndarray [5; 5]
           [false; false; false; false; false;
            false; true;  true;  true;  false;
            false; true;  false; true;  false;
            false; true;  true;  true;  false;
            false; false; false; false; false],
         mk_ndarray [5; 5]
           [false; false; false; false; false;
            false; false; false; false; false;
            false; false; true;  true;  true;
            false; false; true;  false; true;
            false; false; true;  true;  true]).
Proof. vm_compute. reflexivity. Qed.

(** Cropped to the joint bounding box, rows and columns 1 to 4. *)
Example square_rings_cropped :
  mask_edges (BoolImage square_a) (BoolImage square_b) 1 true
  = inr (mk_ndarray [4; 4]
           [true;  true;  true;  false;
            true;  false; true;  false;
            true;  true;  true;  false;
            false; false; false; false],
         mk_ndarray [4; 4]
           [false; false; false; false;
            false; true;  true;  true;
            false; true;  false; true;
            false; true;  true;  true]).
Proof. vm_compute. reflexivity. Qed.

(** A labelfield is binarized with label_idx before anything else. *)
Example labelfield_edges :
  mask_edges (LabelImage labels_2x2) (LabelImage labels_2x2) 1 false
  = inr (mk_ndarray [2; 2] [false; true; false; true],
         mk_ndarray [2; 2] [false; true; false; true]).
Proof. vm_compute. reflexivity. Qed.

(** Images of different shapes are refused. *)
Example shape_mismatch_refused :
  is_ValueError (mask_edges (BoolImage square_a) (LabelImage labels_2x2) 1 true).
Proof. eexists. reflexivity. Qed.

(** Taxicab and chessboard distances from the ring of the first square to
    the ring of the second, in row-major order of the first. *)
Example ring_distances :
  surface_distance (edges_of Kernels.binary_erosion square_a)
                   (edges_of Kernels.binary_erosion square_b) 1 true "taxicab"
  = inr (Int32Array (mk_ndarray [8] [2; 1; 1; 1; 0; 1; 0; 1]%Z))
  /\ surface_distance (edges_of Kernels.binary_erosion square_a)
                      (edges_of Kernels.binary_erosion square_b) 1 true "chessboard"
     = inr (Int32Array (mk_ndarray [8] [1; 1; 1; 1; 0; 1; 0; 1]%Z)).
Proof. split; vm_compute; reflexivity. Qed.

(** Boundary masks of different shapes cannot be sampled. *)
Example boundary_shapes_must_agree :
  is_IndexError (surface_distance square_a (full [3] false) 1 true "euclidean").
Proof. eexists. reflexivity. Qed.

(** ** Further properties of [do_metric_reduction] *)

(** *** Blocks of a well-formed tensor *)

Lemma chunks_length {A} (k n : nat) :
  forall l : list A, length (chunks k n l) = k.
Proof.
  induction k as [|k IH]; intros l; simpl; [reflexivity | now rewrite IH].
Qed.

Lemma chunks_all_length {A} (k n : nat) :
  forall l : list A, k * n <= length l ->
                     Forall (fun blk => length blk = n) (chunks k n l).
Proof.
  induction k as [|k IH]; intros l H; simpl in *; constructor.
  - rewrite length_firstn. lia.
  - apply IH. rewrite length_skipn. lia.
Qed.

Lemma fold_zip_add_keeps_length (n : nat) (cs : list (list spec_float)) :
  Forall (fun blk => length blk = n) cs ->
  forall acc, length acc = n -> length (fold_left zip_add cs acc) = n.
Proof.
  induction 1 as [|blk cs Hblk _ IH]; intros acc Hacc; simpl; [exact Hacc|].
  apply IH. rewrite zip_add_length, Hacc, Hblk. apply Nat.min_id.
Qed.

Lemma sum_block_full_length (n inner : nat) (blk : list spec_float) :
  n * inner <= length blk -> length (sum_block n inner blk) = inner.
Proof.
  intros H. unfold sum_block. apply fold_zip_add_keeps_length.
  - now apply chunks_all_length.
  - apply repeat_length.
Qed.

Lemma concat_map_length {A B} (g : list A -> list B) (m : nat) (xs : list (list A)) :
  Forall (fun x => length (g x) = m) xs ->
  length (concat (map g xs)) = length xs * m.
Proof.
  induction 1 as [|x xs Hx _ IH]; simpl; [reflexivity|].
  now rewrite length_app, Hx, IH.
Qed.

Lemma numel_app (s1 s2 : list nat) : numel (s1 ++ s2) = numel s1 * numel s2.
Proof.
  induction s1 as [|n s1 IH]; simpl; [lia|]. rewrite IH. lia.
Qed.

Lemma numel_split (d : nat) (s : list nat) :
  d < length s ->
  numel s = numel (firstn d s) * (nth d s 1 * numel (skipn (S d) s)).
Proof.
  intros H.
  assert (E : nth_error s d = Some (nth d s 1)) by now apply nth_error_nth'.
  rewrite <- (firstn_skipn_middle _ _ E) at 1.
  now rewrite numel_app.
Qed.

(** Summing a well-formed tensor along one of its axes gives a well-formed
    tensor without that axis. *)
Lemma sum_dim_wf (d : nat) (t : Tensor) :
  wf t -> d < ndim t ->
  exists t', sum_dim d t = inr t'
             /\ shape t' = (firstn d (shape t) ++ skipn (S d) (shape t))%list
             /\ wf t'.
Proof.
  intros Hwf Hd. unfold sum_dim. unfold ndim in Hd.
  pose proof Hd as Hb. apply Nat.ltb_lt in Hb. rewrite Hb, orb_true_l.
  eexists. split; [reflexivity|]. split; [reflexivity|].
  unfold wf, size in *. cbn [shape data].
  rewrite numel_app.
  set (outer := numel (firstn d (shape t))).
  set (n := nth d (shape t) 1).
  set (inner := numel (skipn (S d) (shape t))).
  assert (Hlen : length (data t) = outer * (n * inner)).
  { rewrite Hwf. now apply numel_split. }
  rewrite concat_map_length with (m := inner).
  - now rewrite chunks_length.
  - eapply Forall_impl; [|apply chunks_all_length; rewrite Hlen; lia].
    intros blk Hblk. apply sum_block_full_length. simpl in Hblk. lia.
Qed.

Lemma same_layout_wf {A B} (a : ndarray A) (b : ndarray B) :
  same_layout a b -> wf b -> wf a.
Proof.
  intros [Hs Hl] Hwf. unfold wf, size in *. now rewrite Hs, Hl.
Qed.

Lemma guarded_mean_wf (s cnt : Tensor) :
  wf s -> wf cnt -> shape s = shape cnt ->
  wf (guarded_mean s cnt) /\ shape (guarded_mean s cnt) = broadcast_one (shape cnt).
Proof.
  intros Hs Hc Hsh. split.
  - unfold wf, size in *.
    rewrite guarded_mean_length by (now rewrite Hs, Hc, Hsh).
    rewrite Hc. simpl. rewrite Hsh. now destruct (shape cnt).
  - simpl. now rewrite Hsh.
Qed.

Lemma to_float_gt_zero_wf (t : Tensor) :
  wf t -> wf (to_float (gt_zero t)) /\ shape (to_float (gt_zero t)) = shape t.
Proof.
  intros H. split; [|reflexivity].
  unfold wf, size in *. simpl. now rewrite !length_map.
Qed.

Lemma sum_dim0_wf (t : Tensor) (b : nat) (s : list nat) :
  wf t -> shape t = b :: s ->
  exists t', sum_dim 0 t = inr t' /\ shape t' = s /\ wf t'.
Proof.
  intros Hwf Hs.
  destruct (sum_dim_wf 0 t Hwf) as (t' & E & S & W).
  - unfold ndim. rewrite Hs. simpl. lia.
  - rewrite Hs in S. now exists t'.
Qed.

Lemma sum_dim1_wf (t : Tensor) (b c : nat) (s : list nat) :
  wf t -> shape t = b :: c :: s ->
  exists t', sum_dim 1 t = inr t' /\ shape t' = b :: s /\ wf t'.
Proof.
  intros Hwf Hs.
  destruct (sum_dim_wf 1 t Hwf) as (t' & E & S & W).
  - unfold ndim. rewrite Hs. simpl. lia.
  - rewrite Hs in S. now exists t'.
Qed.

Lemma sum_dims_0_1_wf (t : Tensor) (b c : nat) (s : list nat) :
  wf t -> shape t = b :: c :: s ->
  exists t', sum_dims_0_1 t = inr t' /\ shape t' = s /\ wf t'.
Proof.
  intros Hwf Hs. unfold sum_dims_0_1, merge_batch_class. rewrite Hs. cbn [bind ret].
  apply (sum_dim0_wf _ (b * c) s); [|reflexivity].
  unfold wf, size in *. rewrite Hs in Hwf. simpl in *. rewrite Hwf. lia.
Qed.

Lemma zeroed_wf (f : Tensor) :
  wf f -> wf (masked_zero f (isnan f)) /\ wf (to_float (logical_not (isnan f))).
Proof.
  intros H. split.
  - exact (same_layout_wf _ _ (masked_zero_layout f) H).
  - exact (same_layout_wf _ _ (not_nans_layout f) H).
Qed.

(** X1.  On well-formed scores of shape [b :: c :: rest] every policy
    returns, and returns well-formed tensors: the counts have the shape
    with the reduced axes removed, the reduced scores have the same shape,
    except that "mean" without trailing axes returns its value in shape
    [[1]] next to a 0-dimensional count. *)
Theorem reduction_result_shapes (f : Tensor) (p : MetricReduction)
    (b c : nat) (rest : list nat)
    (Hwf : wf f) (Hshape : shape f = b :: c :: rest) :
  exists out cnt,
    returned (do_metric_reduction f (ByMember p)) = inr (out, cnt)
    /\ shape out = reduced_shape p b c rest
    /\ shape cnt = counts_shape p b c rest
    /\ wf out /\ wf cnt.
Proof.
  unfold do_metric_reduction. cbn [returned MetricReduction_call bind ret].
  destruct (zeroed_wf f Hwf) as [Wf Wn].
  set (f0 := masked_zero f (isnan f)) in *.
  set (nn := to_float (logical_not (isnan f))) in *.
  assert (Sf : shape f0 = b :: c :: rest) by exact Hshape.
  assert (Sn : shape nn = b :: c :: rest) by exact Hshape.
  destruct p; cbn [reduce_dispatch reduced_shape counts_shape].
  - (* none *)
    exists f0, nn. repeat split; assumption.
  - (* mean *)
    destruct (sum_dim1_wf nn b c rest Wn Sn) as (c1 & E1 & S1 & W1).
    destruct (sum_dim1_wf f0 b c rest Wf Sf) as (s1 & E2 & S2 & W2).
    rewrite E1, E2. cbn [bind].
    destruct (guarded_mean_wf s1 c1 W2 W1) as [Wm Sm]; [congruence|].
    rewrite S1 in Sm. cbn [broadcast_one] in Sm.
    destruct (to_float_gt_zero_wf c1 W1) as [Wg Sg]. rewrite S1 in Sg.
    destruct (sum_dim0_wf _ b rest Wg Sg) as (c2 & E3 & S3 & W3).
    destruct (sum_dim0_wf _ b rest Wm Sm) as (s2 & E4 & S4 & W4).
    rewrite E3, E4. cbn [bind ret].
    destruct (guarded_mean_wf s2 c2 W4 W3) as [Wm2 Sm2]; [congruence|].
    exists (guarded_mean s2 c2), c2.
    rewrite S3 in Sm2. repeat split; assumption.
  - (* sum *)
    destruct (sum_dims_0_1_wf nn b c rest Wn Sn) as (c2 & E3 & S3 & W3).
    destruct (sum_dims_0_1_wf f0 b c rest Wf Sf) as (s2 & E4 & S4 & W4).
    rewrite E3. cbn [bind]. rewrite E4. cbn [bind ret].
    exists s2, c2. repeat split; assumption.
  - (* mean_batch *)
    destruct (sum_dim0_wf nn b (c :: rest) Wn Sn) as (c1 & E1 & S1 & W1).
    destruct (sum_dim0_wf f0 b (c :: rest) Wf Sf) as (s1 & E2 & S2 & W2).
    rewrite E1, E2. cbn [bind ret].
    destruct (guarded_mean_wf s1 c1 W2 W1) as [Wm Sm]; [congruence|].
    rewrite S1 in Sm.
    exists (guarded_mean s1 c1), c1. repeat split; assumption.
  - (* sum_batch *)
    destruct (sum_dim0_wf nn b (c :: rest) Wn Sn) as (c1 & E1 & S1 & W1).
    destruct (sum_dim0_wf f0 b (c :: rest) Wf Sf) as (s1 & E2 & S2 & W2).
    rewrite E1, E2. cbn [bind ret].
    exists s1, c1. repeat split; assumption.
  - (* mean_channel *)
    destruct (sum_dim1_wf nn b c rest Wn Sn) as (c1 & E1 & S1 & W1).
    destruct (sum_dim1_wf f0 b c rest Wf Sf) as (s1 & E2 & S2 & W2).
    rewrite E1, E2. cbn [bind ret].
    destruct (guarded_mean_wf s1 c1 W2 W1) as [Wm Sm]; [congruence|].
    rewrite S1 in Sm.
    exists (guarded_mean s1 c1), c1. repeat split; assumption.
  - (* sum_channel *)
    destruct (sum_dim1_wf nn b c rest Wn Sn) as (c1 & E1 & S1 & W1).
    destruct (sum_dim1_wf f0 b c rest Wf Sf) as (s1 & E2 & S2 & W2).
    rewrite E1, E2. cbn [bind ret].
    exists s1, c1. repeat split; assumption.
Qed.

(** Scores of shape 2x2 under "mean": the value in shape [[1]], the count
    without axes. *)
Lemma reduction_result_shapes_witness :
  wf scores_c1 /\ shape scores_c1 = [2; 2]
  /\ exists out cnt,
      returned (do_metric_reduction scores_c1 (ByMember MEAN)) = inr (out, cnt)
      /\ shape out = [1] /\ shape cnt = [] /\ wf out /\ wf cnt.
Proof.
  refine (conj eq_refl (conj eq_refl _)).
  exact (reduction_result_shapes scores_c1 MEAN 2 2 [] eq_refl eq_refl).
Defined.

(** *** The write into the caller's tensor *)

Lemma masked_zero_eq (f : Tensor) :
  masked_zero f (isnan f) = mk_ndarray (shape f) (map zero_nan (data f)).
Proof.
  unfold masked_zero, isnan, amap2, amap. simpl. f_equal. apply map_combine_self.
Qed.

Lemma zero_nan_fixed_iff (x : spec_float) : zero_nan x = x <-> F32.is_nan x = false.
Proof.
  split; [|apply zero_nan_fixed].
  destruct x; simpl; try reflexivity. discriminate.
Qed.

(** X2.  Whatever the policy argument, valid or not, the call leaves the
    caller's tensor in one and the same state, which a further call with
    any policy does not change any more; and the call leaves the caller's
    tensor as it was if and only if it held no NaN. *)
Theorem caller_tensor_after_call (f : Tensor) (r r' : reduction_arg) :
  scores_after (do_metric_reduction f r) = scores_after (do_metric_reduction f r')
  /\ scores_after (do_metric_reduction (scores_after (do_metric_reduction f r)) r')
     = scores_after (do_metric_reduction f r)
  /\ (scores_after (do_metric_reduction f r) = f
      <-> Forall (fun x => F32.is_nan x = false) (data f)).
Proof.
  split; [reflexivity|]. split.
  - unfold do_metric_reduction. cbn [scores_after]. apply masked_zero_idempotent.
  - unfold do_metric_reduction. cbn [scores_after]. rewrite masked_zero_eq.
    destruct f as [s d]. cbn [shape data]. split.
    + intros E. injection E as E.
      rewrite <- (map_id d) in E at 2. apply map_eq_Forall in E.
      eapply Forall_impl; [|exact E]. intros x Hx. now apply zero_nan_fixed_iff.
    + intros H. f_equal. rewrite <- (map_id d) at 2. apply map_eq_Forall.
      eapply Forall_impl; [|exact H]. intros x Hx. now apply zero_nan_fixed_iff.
Qed.

(** *** Tensors without a class axis *)

Lemma sum_dim_error (d : nat) (t : Tensor) (e : exn) :
  sum_dim d t = inl e -> e = dim_out_of_range (ndim t) d.
Proof.
  unfold sum_dim, ndim.
  destruct ((d <? length (shape t)) || ((length (shape t) =? 0) && (d =? 0)));
    intros H; [discriminate H | now injection H as <-].
Qed.

Lemma sum_dim_raises (d : nat) (t : Tensor) (e : exn) :
  sum_dim d t = inl e -> exists r d', e = dim_out_of_range r d'.
Proof.
  intros H. apply sum_dim_error in H. eexists. eexists. exact H.
Qed.

Lemma sum_dims_0_1_error (t : Tensor) (e : exn) :
  sum_dims_0_1 t = inl e -> exists r d, e = dim_out_of_range r d.
Proof.
  unfold sum_dims_0_1, merge_batch_class.
  destruct (shape t) as [|b [|c s]]; cbn [bind ret raise]; intros H.
  - injection H as <-. eexists. eexists. reflexivity.
  - injection H as <-. eexists. eexists. reflexivity.
  - apply sum_dim_error in H. eexists. eexists. exact H.
Qed.

Lemma sum_dim1_below_rank_two (t : Tensor) :
  ndim t < 2 ->
  sum_dim 1 t = inl (dim_out_of_range (ndim t) 1)
  /\ sum_dims_0_1 t = inl (dim_out_of_range (ndim t) 1).
Proof.
  unfold ndim, sum_dim, sum_dims_0_1, merge_batch_class. intros H.
  destruct (shape t) as [|b [|c s]]; simpl in *; try (split; reflexivity). lia.
Qed.

(** X3.  On scores of rank below two, the four policies that reduce the
    class axis (mean, sum, mean_channel, sum_channel) raise IndexError: the
    first sum along axis 1 finds no such axis.  The caller's tensor has
    been zeroed at its NaN entries all the same. *)
Theorem class_axis_policies_need_rank_two (f : Tensor) (p : MetricReduction)
    (Hrank : ndim f < 2) (Hp : reduces_class_axis p = true) :
  is_IndexError (returned (do_metric_reduction f (ByMember p)))
  /\ Forall (fun x => F32.is_nan x = false)
            (data (scores_after (do_metric_reduction f (ByMember p)))).
Proof.
  split.
  - unfold do_metric_reduction. cbn [returned MetricReduction_call bind ret].
    destruct (sum_dim1_below_rank_two (to_float (logical_not (isnan f))) Hrank)
      as [E1 E2].
    unfold is_IndexError, dim_out_of_range in *.
    destruct p; try discriminate Hp; cbn [reduce_dispatch];
      rewrite ?E1, ?E2; cbn [bind]; eexists; reflexivity.
  - unfold do_metric_reduction. cbn [scores_after]. rewrite masked_zero_data.
    apply Forall_map, Forall_forall. intros x _. apply zero_nan_not_nan.
Qed.

(** A vector of two scores under "sum_channel". *)
Lemma class_axis_policies_witness :
  ndim (mk_ndarray [2] [F32.one; F32.nan]) < 2
  /\ reduces_class_axis SUM_CHANNEL = true
  /\ is_IndexError
       (returned (do_metric_reduction (mk_ndarray [2] [F32.one; F32.nan])
                    (ByMember SUM_CHANNEL))).
Proof.
  assert (H : ndim (mk_ndarray [2] [F32.one; F32.nan]) < 2) by (vm_compute; lia).
  refine (conj H (conj eq_refl _)).
  exact (proj1 (class_axis_policies_need_rank_two
                  (mk_ndarray [2] [F32.one; F32.nan]) SUM_CHANNEL H eq_refl)).
Defined.

(** *** Names and members *)

Lemma MetricReduction_call_value (m : MetricReduction) :
  MetricReduction_call (ByName (MetricReduction_value m)) = inr m.
Proof. now destruct m. Qed.

Lemma reduce_dispatch_error (p : MetricReduction) (f nn : Tensor) (e : exn) :
  reduce_dispatch p f nn = inl e -> exists r d, e = dim_out_of_range r d.
Proof.
  unfold reduce_dispatch, bind, ret.
  destruct p;
    repeat match goal with
      | |- context [match sum_dim ?d ?t with _ => _ end] =>
          let E := fresh "E" in
          destruct (sum_dim d t) eqn:E; [apply sum_dim_raises in E|]
      | |- context [match sum_dims_0_1 ?t with _ => _ end] =>
          let E := fresh "E" in
          destruct (sum_dims_0_1 t) eqn:E; [apply sum_dims_0_1_error in E|]
      end;
    intros H; try discriminate H; injection H as <-; assumption.
Qed.

(** X4.  A policy given by the name of a member behaves as the member
    itself; and the call raises ValueError exactly when the policy string
    is none of the seven names, whatever the scores are. *)
Theorem policy_names_and_members (f : Tensor) (s : string) :
  (forall m, do_metric_reduction f (ByName (MetricReduction_value m))
             = do_metric_reduction f (ByMember m))
  /\ (is_ValueError (returned (do_metric_reduction f (ByName s)))
      <-> ~ In s reduction_names).
Proof.
  split.
  - intros m. unfold do_metric_reduction. now rewrite MetricReduction_call_value.
  - split.
    + intros [msg H] Hin. unfold reduction_names in Hin.
      apply in_map_iff in Hin. destruct Hin as (m & <- & _).
      unfold do_metric_reduction in H. cbn [returned] in H.
      rewrite MetricReduction_call_value in H. cbn [bind] in H.
      apply reduce_dispatch_error in H. destruct H as (rk & d & H). discriminate H.
    + intros H. unfold do_metric_reduction. cbn [returned].
      rewrite (MetricReduction_call_unknown s H). eexists. reflexivity.
Qed.

(** *** What the counts depend on *)

Lemma sum_dim_together (d : nat) (a b : Tensor) :
  same_layout a b ->
  (exists a' b', sum_dim d a = inr a' /\ sum_dim d b = inr b' /\ same_layout a' b')
  \/ (exists e, sum_dim d a = inl e /\ sum_dim d b = inl e).
Proof.
  intros H. pose proof (sum_dim_same_layout d a b H) as L.
  destruct (sum_dim d a) as [ea|a'] eqn:Ea, (sum_dim d b) as [eb|b'] eqn:Eb;
    try contradiction.
  - right. exists ea. split; [reflexivity|].
    apply sum_dim_error in Ea, Eb. unfold ndim in *. rewrite (proj1 H) in Ea. congruence.
  - left. now exists a', b'.
Qed.

Lemma sum_dims_0_1_together (a b : Tensor) :
  same_layout a b ->
  (exists a' b', sum_dims_0_1 a = inr a' /\ sum_dims_0_1 b = inr b' /\ same_layout a' b')
  \/ (exists e, sum_dims_0_1 a = inl e /\ sum_dims_0_1 b = inl e).
Proof.
  intros [Hs Hl]. unfold sum_dims_0_1, merge_batch_class. rewrite <- Hs.
  destruct (shape a) as [|n [|c s]]; cbn [bind ret raise].
  - right. eexists. split; reflexivity.
  - right. eexists. split; reflexivity.
  - apply sum_dim_together. split; [reflexivity | exact Hl].
Qed.

Lemma guarded_mean_same_layout (s s' cnt : Tensor) :
  same_layout s s' -> same_layout (guarded_mean s cnt) (guarded_mean s' cnt).
Proof.
  intros [Hs Hl]. split; simpl.
  - now rewrite Hs.
  - now rewrite !length_map, !length_combine, !length_map, !length_combine, Hl.
Qed.

(** The counts a policy returns are the same for two zeroed tensors of one
    layout. *)
Lemma reduce_dispatch_counts (p : MetricReduction) (f g nn : Tensor) :
  same_layout f g ->
  counts_of (reduce_dispatch p f nn) = counts_of (reduce_dispatch p g nn).
Proof.
  intros L. unfold counts_of.
  destruct p; cbn [reduce_dispatch].
  - reflexivity.
  - (* mean *)
    destruct (sum_dim 1 nn) as [e|c1]; [reflexivity|]. cbn [bind].
    destruct (sum_dim_together 1 f g L) as [(s1 & s1' & -> & -> & L1) | (e & -> & ->)];
      [|reflexivity]. cbn [bind].
    destruct (sum_dim 0 (to_float (gt_zero c1))) as [e|c2]; [reflexivity|]. cbn [bind].
    destruct (sum_dim_together 0 _ _ (guarded_mean_same_layout s1 s1' c1 L1))
      as [(s2 & s2' & -> & -> & _) | (e & -> & ->)]; reflexivity.
  - (* sum *)
    destruct (sum_dims_0_1 nn) as [e|c2]; [reflexivity|]. cbn [bind].
    destruct (sum_dims_0_1_together f g L) as [(s2 & s2' & -> & -> & _) | (e & -> & ->)];
      reflexivity.
  - destruct (sum_dim 0 nn) as [e|c1]; [reflexivity|]. cbn [bind].
    destruct (sum_dim_together 0 f g L) as [(s1 & s1' & -> & -> & _) | (e & -> & ->)];
      reflexivity.
  - destruct (sum_dim 0 nn) as [e|c1]; [reflexivity|]. cbn [bind].
    destruct (sum_dim_together 0 f g L) as [(s1 & s1' & -> & -> & _) | (e & -> & ->)];
      reflexivity.
  - destruct (sum_dim 1 nn) as [e|c1]; [reflexivity|]. cbn [bind].
    destruct (sum_dim_together 1 f g L) as [(s1 & s1' & -> & -> & _) | (e & -> & ->)];
      reflexivity.
  - destruct (sum_dim 1 nn) as [e|c1]; [reflexivity|]. cbn [bind].
    destruct (sum_dim_together 1 f g L) as [(s1 & s1' & -> & -> & _) | (e & -> & ->)];
      reflexivity.
Qed.

(** X5.  The counts are a function of the shape and of the positions of
    the NaN entries alone: two score tensors of one shape with NaN at the
    same positions get the same counts under every policy argument (or the
    same exception), whatever their other entries are. *)
Theorem counts_depend_on_nan_positions (f g : Tensor) (r : reduction_arg)
    (Hshape : shape f = shape g)
    (Hnan : map F32.is_nan (data f) = map F32.is_nan (data g)) :
  counts_of (returned (do_metric_reduction f r))
  = counts_of (returned (do_metric_reduction g r)).
Proof.
  unfold do_metric_reduction. cbn [returned].
  assert (En : isnan f = isnan g) by (unfold isnan, amap; now rewrite Hshape, Hnan).
  rewrite <- En.
  destruct (MetricReduction_call r) as [e|p]; [reflexivity|]. cbn [bind].
  apply reduce_dispatch_counts.
  rewrite En at 2.
  eapply same_layout_trans; [apply masked_zero_layout|].
  apply same_layout_sym. eapply same_layout_trans; [apply masked_zero_layout|].
  split; [now symmetry|].
  apply (f_equal (@length bool)) in Hnan. now rewrite !length_map in Hnan.
Qed.

(** [[1, NaN], [3, 4]] and [[7, NaN], [0, 5]] under "mean". *)
Lemma counts_depend_on_nan_positions_witness :
  shape scores_c1 = shape (mk_ndarray [2; 2] [F32.of_Z 7; F32.nan; F32.zero; F32.of_Z 5])
  /\ map F32.is_nan (data scores_c1) = [false; true; false; false]
  /\ counts_of (returned (do_metric_reduction
                            (mk_ndarray [2; 2] [F32.of_Z 7; F32.nan; F32.zero; F32.of_Z 5])
                            (ByName "mean")))
     = inr (mk_ndarray [] [F32.of_Z 2]).
Proof.
  refine (conj eq_refl (conj eq_refl _)).
  rewrite <- (counts_depend_on_nan_positions scores_c1
                (mk_ndarray [2; 2] [F32.of_Z 7; F32.nan; F32.zero; F32.of_Z 5])
                (ByName "mean") eq_refl eq_refl).
  vm_compute. reflexivity.
Defined.

(** *** Averages from sums *)

Lemma guarded_mean_cell (s cnt : Tensor) (i : nat) (x n : spec_float) :
  cell s i = Some x -> cell cnt i = Some n ->
  cell (guarded_mean s cnt) i
  = Some (if F32.ltb F32.zero n then F32.div x n else F32.zero).
Proof.
  unfold cell, guarded_mean, where_one, gt_zero, tdiv. simpl. intros Hx Hn.
  rewrite nth_error_map_combine, nth_error_map, Hn. simpl.
  now rewrite nth_error_map_combine, Hx, Hn.
Qed.

(** X6.  The averaging policies are the summing policies divided by the
    counts: if "sum_batch" returns sums S and counts N, then "mean_batch"
    on the same scores returns the same counts N, and at every position
    the quotient of the sum by the count where the count is positive, and
    zero elsewhere.  The same holds of "mean_channel" and "sum_channel". *)
Theorem averages_are_guarded_quotients (f S N : Tensor)
    (p_sum p_mean : MetricReduction)
    (Hpair : In (p_sum, p_mean) [(SUM_BATCH, MEAN_BATCH); (SUM_CHANNEL, MEAN_CHANNEL)])
    (Hsum : returned (do_metric_reduction f (ByMember p_sum)) = inr (S, N)) :
  exists M,
    returned (do_metric_reduction f (ByMember p_mean)) = inr (M, N)
    /\ forall i x n, cell S i = Some x -> cell N i = Some n ->
         cell M i = Some (if F32.ltb F32.zero n then F32.div x n else F32.zero).
Proof.
  unfold do_metric_reduction in *. cbn [returned MetricReduction_call bind ret] in *.
  destruct Hpair as [E | [E | []]]; injection E as <- <-;
    cbn [reduce_dispatch] in *.
  - destruct (sum_dim 0 (to_float (logical_not (isnan f)))) as [e|c1];
      [discriminate Hsum|]. cbn [bind] in *.
    destruct (sum_dim 0 (masked_zero f (isnan f))) as [e|s1];
      [discriminate Hsum|]. cbn [bind ret] in *.
    injection Hsum as <- <-.
    exists (guarded_mean s1 c1). split; [reflexivity|].
    intros i x n. apply guarded_mean_cell.
  - destruct (sum_dim 1 (to_float (logical_not (isnan f)))) as [e|c1];
      [discriminate Hsum|]. cbn [bind] in *.
    destruct (sum_dim 1 (masked_zero f (isnan f))) as [e|s1];
      [discriminate Hsum|]. cbn [bind ret] in *.
    injection Hsum as <- <-.
    exists (guarded_mean s1 c1). split; [reflexivity|].
    intros i x n. apply guarded_mean_cell.
Qed.

(** The column sums [4, 4] and counts [2, 1] of [[1, NaN], [3, 4]]. *)
Lemma averages_are_guarded_quotients_witness :
  In (SUM_BATCH, MEAN_BATCH) [(SUM_BATCH, MEAN_BATCH); (SUM_CHANNEL, MEAN_CHANNEL)]
  /\ returned (do_metric_reduction scores_c1 (ByMember SUM_BATCH))
     = inr (mk_ndarray [2] [F32.of_Z 4; F32.of_Z 4], mk_ndarray [2] [F32.of_Z 2; F32.of_Z 1])
  /\ exists M,
      returned (do_metric_reduction scores_c1 (ByMember MEAN_BATCH))
      = inr (M, mk_ndarray [2] [F32.of_Z 2; F32.of_Z 1])
      /\ cell M 0 = Some (F32.of_Z 2).
Proof.
  assert (H1 : In (SUM_BATCH, MEAN_BATCH)
                  [(SUM_BATCH, MEAN_BATCH); (SUM_CHANNEL, MEAN_CHANNEL)]) by (left; reflexivity).
  assert (H2 : returned (do_metric_reduction scores_c1 (ByMember SUM_BATCH))
               = inr (mk_ndarray [2] [F32.of_Z 4; F32.of_Z 4],
                      mk_ndarray [2] [F32.of_Z 2; F32.of_Z 1]))
    by (vm_compute; reflexivity).
  refine (conj H1 (conj H2 _)).
  destruct (averages_are_guarded_quotients scores_c1 _ _ SUM_BATCH MEAN_BATCH H1 H2)
    as (M & HM & Hcells).
  exists M. split; [exact HM|].
  exact (Hcells 0 (F32.of_Z 4) (F32.of_Z 2) eq_refl eq_refl).
Defined.

(** ** Further properties of [get_mask_edges] *)

Lemma shape_eqb_eq (s1 s2 : list nat) : shape_eqb s1 s2 = true <-> s1 = s2.
Proof.
  unfold shape_eqb. destruct (list_eq_dec Nat.eq_dec s1 s2); split; congruence.
Qed.

Lemma shape_eqb_sym (s1 s2 : list nat) : shape_eqb s1 s2 = shape_eqb s2 s1.
Proof.
  unfold shape_eqb.
  destruct (list_eq_dec Nat.eq_dec s1 s2), (list_eq_dec Nat.eq_dec s2 s1); congruence.
Qed.

(** X7.  [get_mask_edges] raises exactly when the first image has no
    element or the two shapes differ, and then it is the ValueError of line
    146; otherwise it returns a pair of masks.  This holds for every
    label_idx, either value of crop, and any kernels. *)
Theorem mask_edges_raises_iff_bad_shapes
    (binary_erosion : ndarray bool -> ndarray bool)
    (generate_spatial_bounding_box : ndarray bool -> list nat * list nat)
    (SpatialCrop : list nat -> list nat -> ndarray bool -> ndarray bool)
    (seg_pred seg_gt : image) (label_idx : Z) (crop : bool) :
  match get_mask_edges binary_erosion generate_spatial_bounding_box SpatialCrop
          seg_pred seg_gt label_idx crop with
  | inl e =>
      e = ValueError "Labelfields should have same shape (and non-zero number of elements)"
      /\ (image_size seg_pred = 0 \/ image_shape seg_pred <> image_shape seg_gt)
  | inr _ =>
      image_size seg_pred <> 0 /\ image_shape seg_pred = image_shape seg_gt
  end.
Proof.
  unfold get_mask_edges.
  destruct (image_size seg_pred =? 0) eqn:Hsize; simpl.
  - split; [reflexivity|]. left. now apply Nat.eqb_eq.
  - apply Nat.eqb_neq in Hsize.
    destruct (shape_eqb (image_shape seg_pred) (image_shape seg_gt)) eqn:Hshape; simpl.
    + apply shape_eqb_eq in Hshape.
      destruct crop; [destruct (negb (any _))|]; simpl; now split.
    + split; [reflexivity|]. right. intros E. apply shape_eqb_eq in E. congruence.
Qed.

Lemma logical_or_comm (a b : ndarray bool) :
  shape a = shape b -> logical_or a b = logical_or b a.
Proof.
  intros Hs. unfold logical_or, amap2. rewrite Hs. f_equal.
  generalize (data b). induction (data a) as [|x l IH]; intros [|y l']; simpl;
    try reflexivity.
  now rewrite IH, orb_comm.
Qed.

(** X8.  Exchanging the two images exchanges the two boundary masks, and
    nothing else: the call with the images exchanged returns the pair of
    the original call in the other order, or raises the same exception. *)
Theorem mask_edges_exchange
    (binary_erosion : ndarray bool -> ndarray bool)
    (generate_spatial_bounding_box : ndarray bool -> list nat * list nat)
    (SpatialCrop : list nat -> list nat -> ndarray bool -> ndarray bool)
    (seg_pred seg_gt : image) (label_idx : Z) (crop : bool) :
  get_mask_edges binary_erosion generate_spatial_bounding_box SpatialCrop
    seg_gt seg_pred label_idx crop
  = swap_edges (get_mask_edges binary_erosion generate_spatial_bounding_box SpatialCrop
                  seg_pred seg_gt label_idx crop).
Proof.
  unfold get_mask_edges, swap_edges.
  rewrite (shape_eqb_sym (image_shape seg_gt)).
  destruct (shape_eqb (image_shape seg_pred) (image_shape seg_gt)) eqn:Hshape.
  - apply shape_eqb_eq in Hshape.
    assert (Hsize : image_size seg_gt = image_size seg_pred)
      by (unfold image_size; now rewrite Hshape).
    rewrite Hsize. destruct (image_size seg_pred =? 0); simpl; [reflexivity|].
    assert (Hb : shape (binarize seg_pred label_idx) = shape (binarize seg_gt label_idx))
      by (now rewrite !binarize_shape).
    destruct crop; [|reflexivity].
    rewrite (logical_or_comm (binarize seg_gt label_idx) (binarize seg_pred label_idx))
      by (now symmetry).
    destruct (negb (any _)); [reflexivity|].
    rewrite (logical_or_comm (expand_dims0 (binarize seg_gt label_idx))
               (expand_dims0 (binarize seg_pred label_idx)))
      by (simpl; now rewrite Hb).
    reflexivity.
  - rewrite !orb_true_r. reflexivity.
Qed.

(** X9.  Only the binarized images matter: the result for any two images
    and label_idx is the result for their binarized boolean images with any
    other label_idx; in particular label_idx has no effect on boolean
    images. *)
Theorem mask_edges_of_binarized
    (binary_erosion : ndarray bool -> ndarray bool)
    (generate_spatial_bounding_box : ndarray bool -> list nat * list nat)
    (SpatialCrop : list nat -> list nat -> ndarray bool -> ndarray bool)
    (seg_pred seg_gt : image) (label_idx label_idx' : Z) (crop : bool) :
  get_mask_edges binary_erosion generate_spatial_bounding_box SpatialCrop
    seg_pred seg_gt label_idx crop
  = get_mask_edges binary_erosion generate_spatial_bounding_box SpatialCrop
      (BoolImage (binarize seg_pred label_idx)) (BoolImage (binarize seg_gt label_idx))
      label_idx' crop.
Proof.
  unfold get_mask_edges, image_size. cbn [image_shape binarize].
  now rewrite !binarize_shape.
Qed.

(** A call that returns had images of one shape, with voxels. *)
Lemma mask_edges_returns_inv
    (binary_erosion : ndarray bool -> ndarray bool)
    (generate_spatial_bounding_box : ndarray bool -> list nat * list nat)
    (SpatialCrop : list nat -> list nat -> ndarray bool -> ndarray bool)
    (seg_pred seg_gt : image) (label_idx : Z) (crop : bool)
    (r : ndarray bool * ndarray bool) :
  get_mask_edges binary_erosion generate_spatial_bounding_box SpatialCrop
    seg_pred seg_gt label_idx crop = inr r ->
  image_size seg_pred <> 0 /\ image_shape seg_pred = image_shape seg_gt.
Proof.
  unfold get_mask_edges.
  destruct (image_size seg_pred =? 0) eqn:Hsize; simpl; [discriminate|].
  destruct (shape_eqb (image_shape seg_pred) (image_shape seg_gt)) eqn:Hshape; simpl;
    [|discriminate].
  intros _. split; [now apply Nat.eqb_neq | now apply shape_eqb_eq].
Qed.

(** X10.  With an erosion that keeps the shape of its input and a cropper
    whose output shape depends on the input through its shape only, the
    two boundary masks returned have one shape; without cropping it is the
    shape of the images. *)
Theorem mask_edges_one_shape
    (binary_erosion : ndarray bool -> ndarray bool)
    (generate_spatial_bounding_box : ndarray bool -> list nat * list nat)
    (SpatialCrop : list nat -> list nat -> ndarray bool -> ndarray bool)
    (seg_pred seg_gt : image) (label_idx : Z) (crop : bool)
    (edges_pred edges_gt : ndarray bool)
    (Herosion : forall m, shape (binary_erosion m) = shape m)
    (Hcrop : forall roi_start roi_end a b,
        shape a = shape b ->
        shape (SpatialCrop roi_start roi_end a) = shape (SpatialCrop roi_start roi_end b))
    (Hres : get_mask_edges binary_erosion generate_spatial_bounding_box SpatialCrop
              seg_pred seg_gt label_idx crop = inr (edges_pred, edges_gt)) :
  shape edges_pred = shape edges_gt
  /\ (crop = false -> shape edges_pred = image_shape seg_pred).
Proof.
  destruct (mask_edges_returns_inv _ _ _ _ _ _ _ _ Hres) as [Hsize Hshape].
  unfold get_mask_edges in Hres.
  rewrite (size_guard_passes seg_pred seg_gt Hsize Hshape) in Hres.
  assert (Hb : shape (binarize seg_pred label_idx) = shape (binarize seg_gt label_idx))
    by (now rewrite !binarize_shape).
  destruct crop.
  - split; [|discriminate].
    destruct (negb (any _)); injection Hres as <- <-.
    + simpl. exact Hb.
    + unfold edges_of, logical_xor, amap2. cbn [shape].
      rewrite !Herosion. unfold squeeze. cbn [shape]. f_equal.
      apply Hcrop. simpl. now rewrite Hb.
  - injection Hres as <- <-. unfold edges_of, logical_xor, amap2. cbn [shape].
    rewrite !Herosion. split; [exact Hb|]. intros _. apply binarize_shape.
Qed.

(** The two squares, cropped, with the reference kernels: two 4x4 masks. *)
Lemma mask_edges_one_shape_witness :
  exists edges_pred edges_gt,
    mask_edges (BoolImage square_a) (BoolImage square_b) 1 true = inr (edges_pred, edges_gt)
    /\ shape edges_pred = [4; 4] /\ shape edges_pred = shape edges_gt.
Proof.
  eexists. eexists. split; [vm_compute; reflexivity|]. split; [reflexivity|].
  refine (proj1 (mask_edges_one_shape
                   Kernels.binary_erosion Kernels.generate_spatial_bounding_box
                   Kernels.SpatialCrop (BoolImage square_a) (BoolImage square_b) 1 true
                   _ _ (fun m => eq_refl) _ _)).
  - intros roi_start roi_end a b H. unfold Kernels.SpatialCrop. cbn [shape]. now rewrite H.
  - vm_compute. reflexivity.
Defined.

(** *** The short-circuit against the erosion path *)

Lemma binarize_wf (im : image) (label_idx : Z) : image_wf im -> wf (binarize im label_idx).
Proof.
  destruct im; simpl; [trivial|]. unfold wf, size. simpl. now rewrite length_map.
Qed.

Lemma empty_union_data (a b : list bool) :
  length a = length b ->
  existsb (fun x => x) (map (fun p => orb (fst p) (snd p)) (combine a b)) = false ->
  a = repeat false (length a) /\ b = repeat false (length b).
Proof.
  revert b. induction a as [|x a IH]; intros [|y b] Hl H; simpl in *;
    try discriminate Hl; [now split|].
  apply orb_false_iff in H. destruct H as [Hxy H].
  apply orb_false_iff in Hxy. destruct Hxy as [-> ->].
  injection Hl as Hl. destruct (IH b Hl H) as [<- <-]. now split.
Qed.

Lemma no_true_cell (l : list bool) :
  (forall i, nth_error l i <> Some true) -> l = repeat false (length l).
Proof.
  induction l as [|x l IH]; intros H; simpl; [reflexivity|].
  destruct x; [now specialize (H 0)|].
  f_equal. apply IH. intros i. exact (H (S i)).
Qed.

Lemma nth_error_repeat_false (n i : nat) : nth_error (repeat false n) i <> Some true.
Proof.
  intros H. apply nth_error_In, repeat_spec in H. discriminate H.
Qed.

(** The boundary of an all-false mask is all false, for an erosion that
    answers inside its input, in the layout of its input. *)
Lemma edges_of_all_false (erosion : ndarray bool -> ndarray bool) (seg : ndarray bool) :
  subset_of (erosion seg) seg -> same_layout (erosion seg) seg -> wf seg ->
  data seg = repeat false (length (data seg)) ->
  edges_of erosion seg = zeros_like seg.
Proof.
  intros Hsub [Hs Hl] Hwf Hfalse.
  unfold wf, size in Hwf.
  remember (length (data seg)) as n eqn:Hn.
  assert (He : data (erosion seg) = repeat false n).
  { rewrite <- Hl. apply no_true_cell. intros i Hi.
    specialize (Hsub i Hi). unfold cell in Hsub. rewrite Hfalse in Hsub.
    exact (nth_error_repeat_false _ _ Hsub). }
  unfold edges_of, logical_xor, amap2, zeros_like, full.
  rewrite Hs, He, Hfalse, combine_repeat, map_repeat. simpl. now rewrite Hwf.
Qed.

(** X11.  When the union of the two binarized images has no true voxel,
    cropping makes no difference: the short-circuit of lines 155 and 156
    returns what the erosion path returns without cropping, for
    well-formed images of one shape with at least one voxel and an erosion
    that answers inside its input, in the layout of its input. *)
Theorem empty_union_crop_makes_no_difference
    (binary_erosion : ndarray bool -> ndarray bool)
    (generate_spatial_bounding_box : ndarray bool -> list nat * list nat)
    (SpatialCrop : list nat -> list nat -> ndarray bool -> ndarray bool)
    (seg_pred seg_gt : image) (label_idx : Z)
    (Hsub : forall m, subset_of (binary_erosion m) m)
    (Hlayout : forall m, same_layout (binary_erosion m) m)
    (Hwfp : image_wf seg_pred) (Hwfg : image_wf seg_gt)
    (Hsize : image_size seg_pred <> 0)
    (Hshape : image_shape seg_pred = image_shape seg_gt)
    (Hempty : any (logical_or (binarize seg_pred label_idx) (binarize seg_gt label_idx))
              = false) :
  get_mask_edges binary_erosion generate_spatial_bounding_box SpatialCrop
    seg_pred seg_gt label_idx true
  = get_mask_edges binary_erosion generate_spatial_bounding_box SpatialCrop
      seg_pred seg_gt label_idx false.
Proof.
  unfold get_mask_edges.
  rewrite (size_guard_passes seg_pred seg_gt Hsize Hshape), Hempty. simpl.
  pose proof (binarize_wf seg_pred label_idx Hwfp) as Wp.
  pose proof (binarize_wf seg_gt label_idx Hwfg) as Wg.
  assert (Hlen : length (data (binarize seg_pred label_idx))
                 = length (data (binarize seg_gt label_idx))).
  { unfold wf, size in Wp, Wg. now rewrite Wp, Wg, !binarize_shape, Hshape. }
  destruct (empty_union_data _ _ Hlen Hempty) as [Fp Fg].
  rewrite (edges_of_all_false binary_erosion _ (Hsub _) (Hlayout _) Wp Fp).
  rewrite (edges_of_all_false binary_erosion _ (Hsub _) (Hlayout _) Wg Fg).
  reflexivity.
Qed.

Lemma reference_erosion_layout (m : ndarray bool) :
  same_layout (Kernels.binary_erosion m) m.
Proof.
  split; [reflexivity|]. unfold Kernels.binary_erosion, Kernels.indexed. simpl.
  now rewrite length_map, length_combine, length_seq, Nat.min_id.
Qed.

(** A 2x2 labelfield without the label 7 against an all-false mask. *)
Lemma empty_union_crop_witness :
  image_wf (LabelImage labels_2x2) /\ image_wf (BoolImage (full [2; 2] false))
  /\ image_size (LabelImage labels_2x2) <> 0
  /\ mask_edges (LabelImage labels_2x2) (BoolImage (full [2; 2] false)) 7 true
     = mask_edges (LabelImage labels_2x2) (BoolImage (full [2; 2] false)) 7 false.
Proof.
  assert (H : image_size (LabelImage labels_2x2) <> 0) by (vm_compute; lia).
  refine (conj eq_refl (conj eq_refl (conj H _))).
  exact (empty_union_crop_makes_no_difference
           Kernels.binary_erosion Kernels.generate_spatial_bounding_box
           Kernels.SpatialCrop (LabelImage labels_2x2) (BoolImage (full [2; 2] false)) 7
           reference_erosion_subset reference_erosion_layout
           eq_refl eq_refl H eq_refl eq_refl).
Defined.

(** ** Further properties of [get_surface_distance] *)

Lemma bool_index_error {A} (a : ndarray A) (m : ndarray bool) (e : exn) :
  bool_index a m = inl e -> e = IndexError "boolean index did not match indexed array".
Proof.
  unfold bool_index. destruct (shape_eqb _ _); intros H;
    [discriminate H | now injection H as <-].
Qed.

Lemma distances_index_error (dis : distances) (m : ndarray bool) (e : exn) :
  distances_index dis m = inl e ->
  e = IndexError "boolean index did not match indexed array".
Proof.
  destruct dis as [a|a]; simpl; destruct (bool_index a m) as [e'|r] eqn:E;
    simpl; intros H; try discriminate H; injection H as <-;
    exact (bool_index_error _ _ _ E).
Qed.

Lemma known_metric_tests (m : string) :
  In m distance_metrics ->
  String.eqb m "euclidean" = true
  \/ String.eqb m "chessboard" || String.eqb m "taxicab" = true.
Proof.
  unfold distance_metrics. simpl. intros [<- | [<- | [<- | []]]]; auto.
Qed.

(** X12.  [get_surface_distance] raises ValueError exactly when both
    boundary masks have a true voxel and the metric is none of
    "euclidean", "chessboard" and "taxicab"; with an empty mask on either
    side no metric string is refused. *)
Theorem surface_distance_raises_iff
    (distance_transform_edt : ndarray bool -> ndarray spec_float)
    (distance_transform_cdt : ndarray bool -> string -> ndarray Z)
    (edges_pred edges_gt : ndarray bool) (label_idx : Z) (crop : bool)
    (distance_metric : string) :
  is_ValueError (get_surface_distance distance_transform_edt distance_transform_cdt
                   edges_pred edges_gt label_idx crop distance_metric)
  <-> any edges_pred = true /\ any edges_gt = true
      /\ ~ In distance_metric distance_metrics.
Proof.
  unfold get_surface_distance. split.
  - intros [msg H].
    destruct (any edges_pred); cbn [negb] in H; [|discriminate H].
    destruct (any edges_gt); cbn [negb] in H.
    + split; [reflexivity|]. split; [reflexivity|]. intros Hin.
      destruct (known_metric_tests _ Hin) as [E | E].
      * rewrite E in H. cbn [bind ret] in H.
        apply distances_index_error in H. discriminate H.
      * destruct (String.eqb distance_metric "euclidean");
          [|rewrite E in H]; cbn [bind ret] in H;
          apply distances_index_error in H; discriminate H.
    + cbn [bind ret] in H. apply distances_index_error in H. discriminate H.
  - intros (-> & -> & Hm). simpl.
    destruct (unknown_metric_tests distance_metric Hm) as [-> ->].
    eexists. reflexivity.
Qed.

(** *** Sampling the distance field *)

Lemma chunks_of_one {A} (l : list A) : chunks (length l) 1 l = map (fun x => [x]) l.
Proof.
  induction l as [|x l IH]; simpl; [reflexivity | now rewrite IH].
Qed.

Lemma select_singletons {A} (m : list bool) :
  forall l : list A,
    concat (map snd (filter (fun p => fst p) (combine m (map (fun x => [x]) l))))
    = select_cells m l
    /\ length (map snd (filter (fun p => fst p) (combine m (map (fun x => [x]) l))))
       = length (select_cells m l).
Proof.
  unfold select_cells.
  induction m as [|b m IH]; intros [|x l]; simpl; try (split; reflexivity).
  destruct (IH l) as [E1 E2].
  destruct b; simpl; [split; congruence | now split].
Qed.

Lemma select_cells_length {A} (m : list bool) :
  forall l : list A, length l = length m -> length (select_cells m l) = count_true m.
Proof.
  unfold select_cells, count_true.
  induction m as [|b m IH]; intros [|x l] H; simpl in *; try discriminate H;
    [reflexivity|].
  injection H as H. destruct b; simpl; now rewrite IH.
Qed.

(** A boolean mask of the shape of a well-formed array picks one cell per
    true position, in order. *)
Lemma bool_index_same_shape {A} (a : ndarray A) (m : ndarray bool) :
  wf a -> wf m -> shape a = shape m ->
  bool_index a m = inr (mk_ndarray [count_true (data m)] (select_cells (data m) (data a)))
  /\ length (select_cells (data m) (data a)) = count_true (data m).
Proof.
  intros Ha Hm Hs. unfold wf, size in *.
  assert (Hl : length (data a) = length (data m)) by (now rewrite Ha, Hm, Hs).
  split; [|now apply select_cells_length].
  unfold bool_index, ndim, size.
  rewrite Hs, firstn_all, shape_eqb_refl, skipn_all. simpl numel.
  rewrite <- Hm, <- Hl, chunks_of_one.
  destruct (select_singletons (data m) (data a)) as [E1 E2].
  now rewrite E1, E2, select_cells_length.
Qed.

(** X13.  For two well-formed boundary masks of one shape, each with a
    true voxel, and transforms that answer in the layout of their input:
    under "euclidean" the result is the float64 sequence of the values of
    the Euclidean transform of the complement of boundary_gt at the true
    voxels of boundary_pred, in row-major order; under "chessboard" and
    "taxicab" it is the int32 sequence of the chamfer transform there; in
    both cases with one entry per true voxel of boundary_pred. *)
Theorem surface_distance_samples_the_field
    (distance_transform_edt : ndarray bool -> ndarray spec_float)
    (distance_transform_cdt : ndarray bool -> string -> ndarray Z)
    (edges_pred edges_gt : ndarray bool) (label_idx : Z) (crop : bool)
    (distance_metric : string)
    (Hedt : forall m, same_layout (distance_transform_edt m) m)
    (Hcdt : forall m metric, same_layout (distance_transform_cdt m metric) m)
    (Hwfp : wf edges_pred) (Hwfg : wf edges_gt)
    (Hshape : shape edges_pred = shape edges_gt)
    (Hpred : any edges_pred = true) (Hgt : any edges_gt = true) :
  (distance_metric = "euclidean" ->
   get_surface_distance distance_transform_edt distance_transform_cdt
     edges_pred edges_gt label_idx crop distance_metric
   = inr (Float64Array
            (mk_ndarray [count_true (data edges_pred)]
               (select_cells (data edges_pred)
                  (data (distance_transform_edt (invert edges_gt)))))))
  /\ (distance_metric = "chessboard" \/ distance_metric = "taxicab" ->
      get_surface_distance distance_transform_edt distance_transform_cdt
        edges_pred edges_gt label_idx crop distance_metric
      = inr (Int32Array
               (mk_ndarray [count_true (data edges_pred)]
                  (select_cells (data edges_pred)
                     (data (distance_transform_cdt (invert edges_gt) distance_metric))))))
  /\ length (select_cells (data edges_pred)
               (data (distance_transform_edt (invert edges_gt))))
     = count_true (data edges_pred)
  /\ length (select_cells (data edges_pred)
               (data (distance_transform_cdt (invert edges_gt) distance_metric)))
     = count_true (data edges_pred).
Proof.
  assert (Wi : wf (invert edges_gt))
    by (unfold wf, size in *; simpl; now rewrite length_map).
  assert (Si : shape (invert edges_gt) = shape edges_pred) by (now rewrite Hshape).
  assert (Be : forall A (a : ndarray A), same_layout a (invert edges_gt) ->
                 bool_index a edges_pred
                 = inr (mk_ndarray [count_true (data edges_pred)]
                          (select_cells (data edges_pred) (data a)))
                 /\ length (select_cells (data edges_pred) (data a))
                    = count_true (data edges_pred)).
  { intros A a L. apply bool_index_same_shape; [|exact Hwfp|].
    - exact (same_layout_wf _ _ L Wi).
    - now rewrite (proj1 L). }
  unfold get_surface_distance. rewrite Hpred, Hgt. simpl.
  split; [|split; [|split]].
  - intros ->. simpl. now rewrite (proj1 (Be _ _ (Hedt _))).
  - intros [-> | ->]; simpl; now rewrite (proj1 (Be _ _ (Hcdt _ _))).
  - apply (Be _ _ (Hedt _)).
  - apply (Be _ _ (Hcdt _ _)).
Qed.

Lemma reference_transform_layout {A} (dist : list nat -> list nat -> Z)
    (conv : option Z -> A) (m : ndarray bool) :
  same_layout (Kernels.transform dist conv m) m.
Proof.
  split; [reflexivity|]. unfold Kernels.transform, Kernels.indexed. simpl.
  now rewrite length_map, length_combine, length_seq, Nat.min_id.
Qed.

(** The rings of the two squares under "taxicab": eight distances. *)
Lemma surface_distance_samples_witness :
  wf (edges_of Kernels.binary_erosion square_a)
  /\ any (edges_of Kernels.binary_erosion square_a) = true
  /\ any (edges_of Kernels.binary_erosion square_b) = true
  /\ surface_distance (edges_of Kernels.binary_erosion square_a)
       (edges_of Kernels.binary_erosion square_b) 1 true "taxicab"
     = inr (Int32Array (mk_ndarray [8] [2; 1; 1; 1; 0; 1; 0; 1]%Z)).
Proof.
  refine (conj eq_refl (conj eq_refl (conj eq_refl _))).
  pose proof (surface_distance_samples_the_field
                Kernels.distance_transform_edt Kernels.distance_transform_cdt
                (edges_of Kernels.binary_erosion square_a)
                (edges_of Kernels.binary_erosion square_b) 1 true "taxicab"
                (fun m => reference_transform_layout _ _ m)
                (fun m metric => reference_transform_layout _ _ m)
                eq_refl eq_refl eq_refl eq_refl eq_refl) as (_ & H & _).
  unfold surface_distance. rewrite (H (or_intror eq_refl)). vm_compute. reflexivity.
Defined.

(** ** Properties of [ignore_background] *)

Lemma remove_background_shape {A} (y : ndarray A) (b c : nat) (rest : list nat) :
  shape y = b :: c :: rest ->
  remove_background y = inr (if 1 <? c then drop_first_channel y else y).
Proof.
  intros H. unfold remove_background, shape_at. now rewrite H.
Qed.

Lemma remove_background_below_rank_two {A} (y : ndarray A) :
  ndim y < 2 -> remove_background y = inl (IndexError "tuple index out of range").
Proof.
  unfold ndim, remove_background, shape_at. intros H.
  destruct (shape y) as [|b [|c s]]; simpl in *; try reflexivity. lia.
Qed.

Lemma drop_first_channel_wf {A} (y : ndarray A) (b c : nat) (rest : list nat) :
  wf y -> shape y = b :: c :: rest ->
  wf (drop_first_channel y) /\ shape (drop_first_channel y) = b :: (c - 1) :: rest.
Proof.
  intros Hwf Hs. unfold drop_first_channel. rewrite Hs. split; [|reflexivity].
  unfold wf, size in *. rewrite Hs in Hwf. simpl in *.
  rewrite concat_map_length with (m := (c - 1) * numel rest).
  - now rewrite chunks_length.
  - eapply Forall_impl; [|apply chunks_all_length; rewrite Hwf; lia].
    intros blk Hblk. simpl in Hblk. rewrite length_skipn, Hblk.
    now rewrite Nat.mul_sub_distr_r, Nat.mul_1_l.
Qed.

(** X14.  On well-formed tensors of rank two or more, [ignore_background]
    returns well-formed tensors that keep the batch axis and the trailing
    axes and have one channel less, where there was more than one channel;
    a tensor with a single channel (or none) is returned as it is.  The two
    tensors are treated each on its own. *)
Theorem ignore_background_shapes {A B} (y_pred : ndarray A) (y : ndarray B)
    (b c b' c' : nat) (rest rest' : list nat)
    (Hwfp : wf y_pred) (Hsp : shape y_pred = b :: c :: rest)
    (Hwfy : wf y) (Hsy : shape y = b' :: c' :: rest') :
  exists y_pred' y',
    ignore_background y_pred y = inr (y_pred', y')
    /\ shape y_pred' = b :: channels_after c :: rest
    /\ shape y' = b' :: channels_after c' :: rest'
    /\ wf y_pred' /\ wf y'
    /\ (c <= 1 -> y_pred' = y_pred) /\ (c' <= 1 -> y' = y).
Proof.
  unfold ignore_background.
  rewrite (remove_background_shape y b' c' rest' Hsy). cbn [bind].
  rewrite (remove_background_shape y_pred b c rest Hsp). cbn [bind ret].
  eexists. eexists. split; [reflexivity|].
  unfold channels_after.
  destruct (drop_first_channel_wf y_pred b c rest Hwfp Hsp) as [W1 S1].
  destruct (drop_first_channel_wf y b' c' rest' Hwfy Hsy) as [W2 S2].
  destruct (1 <? c) eqn:Ec, (1 <? c') eqn:Ec';
    try apply Nat.ltb_lt in Ec; try apply Nat.ltb_lt in Ec';
    repeat split; try assumption; try reflexivity; intros; lia.
Qed.

(** Predictions with three channels, a ground truth with one. *)
Lemma ignore_background_shapes_witness :
  wf iota_2x3x2 /\ wf single_channel
  /\ exists y_pred' y',
      ignore_background iota_2x3x2 single_channel = inr (y_pred', y')
      /\ shape y_pred' = [2; 2; 2] /\ shape y' = [2; 1] /\ y' = single_channel.
Proof.
  refine (conj eq_refl (conj eq_refl _)).
  destruct (ignore_background_shapes iota_2x3x2 single_channel 2 3 2 1 [2] []
              eq_refl eq_refl eq_refl eq_refl)
    as (p' & y' & H & S1 & S2 & _ & _ & _ & Hy).
  exists p', y'. exact (conj H (conj S1 (conj S2 (Hy (le_n 1))))).
Defined.

Lemma dropped_blocks_nth {A} (inner m : nat) :
  forall (b : nat) (l : list A) (i q : nat),
    b * (inner + m) <= length l -> i < b -> q < m ->
    nth_error (concat (map (skipn inner) (chunks b (inner + m) l))) (i * m + q)
    = nth_error l (i * (inner + m) + inner + q).
Proof.
  induction b as [|b IH]; intros l i q Hl Hi Hq; [lia|].
  simpl chunks. simpl map. simpl concat. simpl in Hl.
  assert (Hblk : length (skipn inner (firstn (inner + m) l)) = m)
    by (rewrite length_skipn, length_firstn; lia).
  destruct i as [|i].
  - simpl. rewrite nth_error_app1 by lia.
    rewrite nth_error_skipn, nth_error_firstn.
    assert (E : (inner + q <? inner + m) = true) by (apply Nat.ltb_lt; lia).
    now rewrite E.
  - rewrite nth_error_app2 by (rewrite Hblk; simpl; lia).
    rewrite Hblk.
    replace (S i * m + q - m) with (i * m + q) by (simpl; lia).
    rewrite IH by (try rewrite length_skipn; lia).
    rewrite nth_error_skipn. f_equal. simpl. lia.
Qed.

Lemma drop_first_channel_cells {A} (y : ndarray A) (b c : nat) (rest : list nat) :
  wf y -> shape y = b :: c :: rest -> 1 < c ->
  channels_shifted y (drop_first_channel y) b c rest.
Proof.
  intros Hwf Hs Hc i k j Hi Hk Hj.
  unfold cell, drop_first_channel. rewrite Hs. cbn [data].
  unfold wf, size in Hwf. rewrite Hs in Hwf. simpl in Hwf.
  set (inner := numel rest) in *.
  set (m := (c - 1) * inner).
  assert (Ec : c * inner = inner + m) by (unfold m; nia).
  rewrite Ec.
  replace ((i * (c - 1) + k) * inner + j) with (i * m + (k * inner + j))
    by (unfold m; nia).
  replace ((i * c + (k + 1)) * inner + j) with (i * (inner + m) + inner + (k * inner + j))
    by (rewrite <- Ec; nia).
  apply dropped_blocks_nth.
  - rewrite Hwf, <- Ec. lia.
  - exact Hi.
  - unfold m. nia.
Qed.

(** X15.  What [ignore_background] returns for a well-formed tensor with
    more than one channel is that tensor without channel 0: every cell at
    channel [k] of the result is the cell at channel [k + 1] of the input,
    in the same batch row and at the same trailing position.  This holds of
    the predictions and of the ground truth. *)
Theorem ignore_background_drops_channel_zero {A B}
    (y_pred y_pred' : ndarray A) (y y' : ndarray B)
    (Hres : ignore_background y_pred y = inr (y_pred', y')) :
  (forall b c rest, wf y_pred -> shape y_pred = b :: c :: rest -> 1 < c ->
                    channels_shifted y_pred y_pred' b c rest)
  /\ (forall b c rest, wf y -> shape y = b :: c :: rest -> 1 < c ->
                       channels_shifted y y' b c rest).
Proof.
  unfold ignore_background in Hres.
  split; intros b c rest Hwf Hs Hc; pose proof Hc as Hlt; apply Nat.ltb_lt in Hlt.
  - destruct (remove_background y) as [e|y0]; [discriminate Hres|]. cbn [bind] in Hres.
    rewrite (remove_background_shape y_pred b c rest Hs), Hlt in Hres.
    cbn [bind ret] in Hres. injection Hres as <- _.
    now apply drop_first_channel_cells.
  - rewrite (remove_background_shape y b c rest Hs), Hlt in Hres. cbn [bind] in Hres.
    destruct (remove_background y_pred) as [e|p0]; [discriminate Hres|].
    cbn [bind ret] in Hres. injection Hres as _ <-.
    now apply drop_first_channel_cells.
Qed.

(** In the 2x3x2 tensor of 0 to 11, row 1, channel 0, position 1 of the
    result holds 9, the cell of row 1, channel 1, position 1. *)
Lemma ignore_background_drops_witness :
  ignore_background iota_2x3x2 single_channel
  = inr (mk_ndarray [2; 2; 2] [2; 3; 4; 5; 8; 9; 10; 11]%Z, single_channel)
  /\ cell (mk_ndarray [2; 2; 2] [2; 3; 4; 5; 8; 9; 10; 11]%Z) 5 = cell iota_2x3x2 9.
Proof.
  assert (H : ignore_background iota_2x3x2 single_channel
              = inr (mk_ndarray [2; 2; 2] [2; 3; 4; 5; 8; 9; 10; 11]%Z, single_channel))
    by reflexivity.
  split; [exact H|].
  exact (proj1 (ignore_background_drops_channel_zero _ _ _ _ H)
           2 3 [2] eq_refl eq_refl ltac:(lia) 1 0 1 ltac:(lia) ltac:(simpl; lia)
           ltac:(simpl; lia)).
Defined.

(** X16.  [ignore_background] raises exactly when one of the two tensors
    has rank below two, and then it is the IndexError of reading
    [shape[1]]; it never compares the two shapes with each other. *)
Theorem ignore_background_raises_iff_rank {A B} (y_pred : ndarray A) (y : ndarray B) :
  match ignore_background y_pred y with
  | inl e => e = IndexError "tuple index out of range" /\ (ndim y < 2 \/ ndim y_pred < 2)
  | inr _ => 2 <= ndim y /\ 2 <= ndim y_pred
  end.
Proof.
  unfold ignore_background.
  destruct (Nat.lt_ge_cases (ndim y) 2) as [Hy | Hy].
  - rewrite (remove_background_below_rank_two y Hy). cbn [bind]. split; [reflexivity | now left].
  - destruct (rank2_shape y Hy) as (b & c & rest & Sy).
    rewrite (remove_background_shape y b c rest Sy). cbn [bind].
    destruct (Nat.lt_ge_cases (ndim y_pred) 2) as [Hp | Hp].
    + rewrite (remove_background_below_rank_two y_pred Hp). cbn [bind].
      split; [reflexivity | now right].
    + destruct (rank2_shape y_pred Hp) as (b' & c' & rest' & Sp).
      rewrite (remove_background_shape y_pred b' c' rest' Sp). cbn [bind ret].
      now split.
Qed.

(** ** Two more readings of the code *)

(** X17.  Policy "none" returns for scores of any rank; the tensor it
    returns is the caller's own tensor as the call left it, and the counts
    are an indicator in the layout of the scores: one where the entry was
    not NaN, zero where it was. *)
Theorem policy_none_passes_through (f : Tensor) :
  exists indicator,
    returned (do_metric_reduction f (ByName "none"))
    = inr (scores_after (do_metric_reduction f (ByName "none")), indicator)
    /\ same_layout indicator f
    /\ forall i x, cell f i = Some x ->
         cell indicator i = Some (if F32.is_nan x then F32.zero else F32.one).
Proof.
  exists (to_float (logical_not (isnan f))).
  split; [reflexivity|]. split; [apply not_nans_layout|].
  intros i x Hx. unfold cell, to_float, logical_not, isnan, amap in *. simpl.
  rewrite !map_map, nth_error_map, Hx. simpl. now destruct (F32.is_nan x).
Qed.

(** X18.  Without cropping, and with an erosion that answers inside its
    input, each boundary mask is its binarized image minus the eroded
    image: a voxel is on the boundary exactly when it is true in the image
    and false after erosion. *)
Theorem boundary_is_mask_minus_erosion
    (binary_erosion : ndarray bool -> ndarray bool)
    (generate_spatial_bounding_box : ndarray bool -> list nat * list nat)
    (SpatialCrop : list nat -> list nat -> ndarray bool -> ndarray bool)
    (seg_pred seg_gt : image) (label_idx : Z)
    (edges_pred edges_gt : ndarray bool)
    (Hsub : forall m, subset_of (binary_erosion m) m)
    (Hres : get_mask_edges binary_erosion generate_spatial_bounding_box SpatialCrop
              seg_pred seg_gt label_idx false = inr (edges_pred, edges_gt)) :
  (forall i v e,
      cell (binarize seg_pred label_idx) i = Some v ->
      cell (binary_erosion (binarize seg_pred label_idx)) i = Some e ->
      cell edges_pred i = Some (v && negb e))
  /\ (forall i v e,
         cell (binarize seg_gt label_idx) i = Some v ->
         cell (binary_erosion (binarize seg_gt label_idx)) i = Some e ->
         cell edges_gt i = Some (v && negb e)).
Proof.
  destruct (mask_edges_returns_inv _ _ _ _ _ _ _ _ Hres) as [Hsize Hshape].
  unfold get_mask_edges in Hres.
  rewrite (size_guard_passes seg_pred seg_gt Hsize Hshape) in Hres.
  injection Hres as <- <-.
  assert (Hcell : forall seg i v e,
             cell seg i = Some v -> cell (binary_erosion seg) i = Some e ->
             cell (edges_of binary_erosion seg) i = Some (v && negb e)).
  { intros seg i v e Hv He.
    pose proof (Hsub seg i) as Hin.
    unfold edges_of, logical_xor, amap2, cell in *. simpl.
    rewrite nth_error_map_combine, He, Hv. simpl.
    destruct e, v; try reflexivity.
    specialize (Hin He). rewrite Hv in Hin. discriminate Hin. }
  split; intros i v e; apply Hcell.
Qed.

(** The first square: its corner voxel at position 6 is true and eroded
    away, so it is on the boundary. *)
Lemma boundary_is_mask_minus_erosion_witness :
  exists edges_pred edges_gt,
    mask_edges (BoolImage square_a) (BoolImage square_b) 1 false
    = inr (edges_pred, edges_gt)
    /\ cell square_a 6 = Some true
    /\ cell (Kernels.binary_erosion square_a) 6 = Some false
    /\ cell edges_pred 6 = Some true.
Proof.
  eexists. eexists. split; [vm_compute; reflexivity|].
  refine (conj eq_refl (conj eq_refl _)).
  refine (proj1 (boundary_is_mask_minus_erosion
                   Kernels.binary_erosion Kernels.generate_spatial_bounding_box
                   Kernels.SpatialCrop (BoolImage square_a) (BoolImage square_b) 1
                   _ _ reference_erosion_subset _) 6 true false eq_refl eq_refl).
  vm_compute. reflexivity.
Defined.

(** The joint sum runs over batch and class in memory order: on
    [[1, 2^24], [1, -2^24]] the ones are lost to rounding, and the sum is
    zero with count 4. *)
Example joint_sum_in_memory_order :
  returned (do_metric_reduction
              (mk_ndarray [2; 2]
                 [F32.of_Z 1; F32.of_Z 16777216; F32.of_Z 1; F32.of_Z (-16777216)])
              (ByName "sum"))
  = inr (mk_ndarray [] [F32.zero], mk_ndarray [] [F32.of_Z 4]).
Proof. vm_compute. reflexivity. Qed.
